(** * Green AI Solar: the efficiency model and its projections

    A shallow embedding of the numerical core of the dashboard:

    - [simulateLocally.predict] and [getQualityLabel]   (src/services/api.js)
    - [generateYearlyEvolution], [generateMaintenanceComparison],
      [checkApi] and [handlePredict]                     (src/App.jsx)

    JavaScript numbers are IEEE-754 binary64 values.  The program text is
    embedded once, over an abstract number interface [JsNumber], and read
    in two ways:

    - over [PrimFloat.float], hardware binary64 arithmetic, which is what
      a JavaScript engine computes: concrete runs are evaluated in it, and
      general facts about it rest on the specification of the primitive
      operations ([FloatAxioms]);
    - over [Q], exact rational arithmetic (every value is finite, no
      rounding error): the reading in which orders and bounds between
      the program's values are proved.

    Facts that depend on no arithmetic law are stated for every
    [JsNumber], and so hold in both readings. *)

From Stdlib Require Import ZArith QArith Qround Qminmax Lqa Lia.
From Stdlib Require Import Bool List String DecimalString.
From Stdlib Require Import PrimFloat FloatAxioms SpecFloat FloatOps.
Import ListNotations.

Set Implicit Arguments.

(** ** JavaScript numbers *)

Declare Scope js_scope.
Delimit Scope js_scope with js.

(** The operations on numbers the program uses.  [lit q] is the numeric
    literal written [q] in the source. *)
Class JsNumber (num : Type) : Type := {
  lit : Q -> num;
  num_add : num -> num -> num;
  num_sub : num -> num -> num;
  num_mul : num -> num -> num;
  num_div : num -> num -> num;
  num_ltb : num -> num -> bool;
  num_leb : num -> num -> bool;
  Math_max : num -> num -> num;
  Math_min : num -> num -> num;
  Math_round : num -> num
}.

Arguments lit {num _} q%_Q.

Notation "x + y" := (num_add x y) : js_scope.
Notation "x - y" := (num_sub x y) : js_scope.
Notation "x * y" := (num_mul x y) : js_scope.
Notation "x / y" := (num_div x y) : js_scope.
Notation "x <? y" := (num_ltb x y) (at level 70, no associativity) : js_scope.
Notation "x >? y" := (num_ltb y x) (at level 70, no associativity) : js_scope.
Notation "x >=? y" := (num_leb y x) (at level 70, no associativity) : js_scope.

(** An integer loop counter used as a number. *)
Definition of_int {num} `{JsNumber num} (z : Z) : num := lit (inject_Z z).

(** *** Exact reading: rationals

    An idealisation of the arithmetic, not what an engine computes: no
    rounding, no NaN and no infinity, and [x / 0] is 0.  At inputs that
    sit on a threshold or on a rounding tie its labels, statuses and
    rounded digits can differ from the binary64 ones (see
    [threshold_inputs_binary64]). *)

Definition Qltb (x y : Q) : bool := negb (Qle_bool y x).

(** [Math.round] rounds to the nearest integer, ties towards +infinity. *)
Definition Qround_half_up (x : Q) : Q := inject_Z (Qfloor (x + (1 # 2))).

#[export] Instance Q_JsNumber : JsNumber Q := {|
  lit := fun q => q;
  num_add := Qplus;
  num_sub := Qminus;
  num_mul := Qmult;
  num_div := Qdiv;
  num_ltb := Qltb;
  num_leb := Qle_bool;
  Math_max := Qmax;
  Math_min := Qmin;
  Math_round := Qround_half_up
|}.

(** *** IEEE reading: binary64 *)

Module Binary64.

Fixpoint of_positive (p : positive) : float :=
  match p with
  | xH => 1%float
  | xO p' => (2 * of_positive p')%float
  | xI p' => (2 * of_positive p' + 1)%float
  end.

Definition of_Z (z : Z) : float :=
  match z with
  | Z0 => 0%float
  | Zpos p => of_positive p
  | Zneg p => (- of_positive p)%float
  end.

(** A decimal literal [n/d] with [n] and [d] below 2^53 denotes the
    binary64 value nearest to the rational, which is what the correctly
    rounded division of the two (exact) integers returns. *)
Definition literal (q : Q) : float := (of_Z (Qnum q) / of_positive (Qden q))%float.

(** [Math.max] and [Math.min] return NaN as soon as one argument is NaN. *)
Definition max (a b : float) : float :=
  if is_nan a || is_nan b then nan else if (a <? b)%float then b else a.

Definition min (a b : float) : float :=
  if is_nan a || is_nan b then nan else if (b <? a)%float then b else a.

Definition two52 : float := Eval cbv in of_positive (2 ^ 52).

(** Nearest integer (ties to even) of a value of magnitude below 2^52. *)
Definition rint (x : float) : float := (x + two52 - two52)%float.

Definition floor (x : float) : float :=
  if (abs x <? two52)%float then
    if (0 <=? x)%float then
      let r := rint x in if (x <? r)%float then (r - 1)%float else r
    else
      let y := (- x)%float in
      let r := rint y in
      (- (if (r <? y)%float then (r + 1)%float else r))%float
  else x.

(** [Math.round]: the integer nearest to [x], ties towards +infinity.
    [x - floor x] is exact, so the comparison with 0.5 is too. *)
Definition round (x : float) : float :=
  let f := floor x in
  if (literal (1 # 2) <=? x - f)%float then (f + 1)%float else f.

End Binary64.

#[export] Instance float_JsNumber : JsNumber float := {|
  lit := Binary64.literal;
  num_add := PrimFloat.add;
  num_sub := PrimFloat.sub;
  num_mul := PrimFloat.mul;
  num_div := PrimFloat.div;
  num_ltb := PrimFloat.ltb;
  num_leb := PrimFloat.leb;
  Math_max := Binary64.max;
  Math_min := Binary64.min;
  Math_round := Binary64.round
|}.

(** ** Data model *)

(** The parameter object: the eight slider keys of [FEATURES_CONFIG]
    followed by the four keys of [ADDITIONAL_FEATURES]. *)
Record Inputs (num : Type) : Type := mkInputs {
  irradiance : num;
  soiling_ratio : num;
  panel_age : num;
  temperature : num;
  humidity : num;
  cloud_coverage : num;
  module_temperature : num;
  wind_speed : num;
  voltage : num;
  current : num;
  pressure : num;
  maintenance_count : num
}.

(** [{...inputs, panel_age: v}] and the like. *)
Definition with_irradiance {num} (inputs : Inputs num) (v : num) : Inputs num :=
  mkInputs v (soiling_ratio inputs) (panel_age inputs) (temperature inputs)
    (humidity inputs) (cloud_coverage inputs) (module_temperature inputs)
    (wind_speed inputs) (voltage inputs) (current inputs) (pressure inputs)
    (maintenance_count inputs).

Definition with_soiling_ratio {num} (inputs : Inputs num) (v : num) : Inputs num :=
  mkInputs (irradiance inputs) v (panel_age inputs) (temperature inputs)
    (humidity inputs) (cloud_coverage inputs) (module_temperature inputs)
    (wind_speed inputs) (voltage inputs) (current inputs) (pressure inputs)
    (maintenance_count inputs).

Definition with_panel_age {num} (inputs : Inputs num) (v : num) : Inputs num :=
  mkInputs (irradiance inputs) (soiling_ratio inputs) v (temperature inputs)
    (humidity inputs) (cloud_coverage inputs) (module_temperature inputs)
    (wind_speed inputs) (voltage inputs) (current inputs) (pressure inputs)
    (maintenance_count inputs).

Definition with_maintenance_count {num} (inputs : Inputs num) (v : num) : Inputs num :=
  mkInputs (irradiance inputs) (soiling_ratio inputs) (panel_age inputs)
    (temperature inputs) (humidity inputs) (cloud_coverage inputs)
    (module_temperature inputs) (wind_speed inputs) (voltage inputs)
    (current inputs) (pressure inputs) v.

(** The object returned by a prediction.  The quality labels are the
    source's French strings: Faible (low), Modérée (moderate), Bonne
    (good), Excellente (excellent). *)
Record Prediction (num : Type) : Type := mkPrediction {
  efficiency : num;
  efficiency_percent : num;
  quality_label : string;
  confidence : string
}.

(** One element of the array built by [generateYearlyEvolution]; the
    source's key [efficiency] is [yr_efficiency] here.  The status strings
    are Bon (good), Acceptable, and À remplacer (replace). *)
Record YearRecord (num : Type) : Type := mkYearRecord {
  year : Z;
  yearLabel : string;
  yr_efficiency : num;
  production : num;
  degradation : num;
  status : string
}.

(** A maintenance policy of [generateMaintenanceComparison]. *)
Record Scenario (num : Type) : Type := mkScenario {
  name : string;
  soilingDecay : num;
  maintenanceBonus : num
}.

(** A chart data point is a plain object: the key ["year"] holds a string,
    every scenario name holds a number. *)
Inductive Value (num : Type) : Type :=
| Str (s : string)
| Num (n : num).

Arguments Str {num} s.
Arguments Num {num} n.

Definition Obj (num : Type) : Type := list (string * Value num).

(** [obj[key]] for an own property of [obj]; the properties every object
    inherits ([toString], [constructor], ...) are not modelled. *)
Fixpoint obj_get {num} (obj : Obj num) (key : string) : option (Value num) :=
  match obj with
  | [] => None
  | (k, v) :: rest => if String.eqb k key then Some v else obj_get rest key
  end.

(** [obj[key] = v]: overwrite an existing key, else add it last. *)
Fixpoint obj_set {num} (obj : Obj num) (key : string) (v : Value num) : Obj num :=
  match obj with
  | [] => [(key, v)]
  | (k, w) :: rest =>
      if String.eqb k key then (k, v) :: rest else (k, w) :: obj_set rest key v
  end.

(** How a call ends: with a value, with the [TypeError] of reading a
    property of [undefined], or (in this model only) by running out of
    the fuel that bounds a loop. *)
Inductive Completion (T : Type) : Type :=
| Returned (v : T)
| TypeError
| OutOfFuel.

Arguments Returned {T} v.
Arguments TypeError {T}.
Arguments OutOfFuel {T}.

(** The three values of the [apiStatus] state variable. *)
Inductive ApiStatus : Type := checking | connected | disconnected.

(** How an awaited promise settles: with a value, or with an [Error]
    carrying a message. *)
Inductive Settled (T : Type) : Type :=
| Resolved (v : T)
| Rejected (message : string).

Arguments Resolved {T} v.
Arguments Rejected {T} message.

(** Template literal interpolation of an integer. *)
Definition show_int (z : Z) : string := NilZero.string_of_int (Z.to_int z).

Unset Implicit Arguments.

(** ** The program *)

Section Program.

Context {num : Type} `{JsNumber num}.
Local Open Scope js_scope.

(** *** src/services/api.js *)

Definition getQualityLabel (efficiency : num) : string :=
  if efficiency <? lit 0.3 then "Faible"
  else if efficiency <? lit 0.5 then "Modérée"
  else if efficiency <? lit 0.7 then "Bonne"
  else "Excellente".

(** [simulateLocally.predict]: each [let] is one assignment to the
    source's mutable local [efficiency]. *)
Definition predict (inputs : Inputs num) : Prediction num :=
  let efficiency := lit 0.3 in
  let efficiency := efficiency + (irradiance inputs / lit 1000) * lit 0.35 in
  let efficiency := efficiency + soiling_ratio inputs * lit 0.15 in
  let efficiency := efficiency - (panel_age inputs / lit 35) * lit 0.08 in
  let efficiency :=
    if temperature inputs >? lit 25
    then efficiency - ((temperature inputs - lit 25) / lit 100) * lit 0.03
    else efficiency in
  let efficiency := efficiency - (humidity inputs / lit 100) * lit 0.02 in
  let efficiency := efficiency - (cloud_coverage inputs / lit 100) * lit 0.02 in
  let efficiency := Math_max (lit 0.1) (Math_min (lit 0.85) efficiency) in
  {| efficiency := efficiency;
     efficiency_percent := efficiency * lit 100;
     quality_label := getQualityLabel efficiency;
     confidence := "simulated" |}.

(** *** src/App.jsx: yearly evolution *)

(** The body of the [for] loop of [generateYearlyEvolution], then the
    loop itself.  The source's local [efficiency] (a percentage) is
    [efficiency'] here, the record key of the same name [yr_efficiency].
    [data[0].efficiency] is read only when [year] is not 0; on an empty
    array the read throws. *)
Fixpoint evolution_loop (fuel : nat) (baseInputs : Inputs num) (maxYears : Z)
    (year : Z) (data : list (YearRecord num)) : Completion (list (YearRecord num)) :=
  match fuel with
  | O => OutOfFuel
  | S fuel' =>
      if (year <=? maxYears)%Z then
        let inputs := with_panel_age baseInputs (of_int year) in
        let result := predict inputs in
        let efficiency' := efficiency result * lit 100 in
        let panelPower := lit 400 in
        let sunHoursPerYear := lit 1500 in
        let annualProduction :=
          (panelPower * sunHoursPerYear * efficiency result) / lit 1000 in
        match (if (year =? 0)%Z then Some efficiency'
               else option_map (@yr_efficiency num) (hd_error data)) with
        | None => TypeError
        | Some initialEfficiency =>
            let degradation :=
              ((initialEfficiency - efficiency') / initialEfficiency) * lit 100 in
            evolution_loop fuel' baseInputs maxYears (year + 1)%Z
              (data ++
               [ {| year := year;
                    yearLabel := "Année " ++ show_int year;
                    yr_efficiency := Math_round (efficiency' * lit 10) / lit 10;
                    production := Math_round annualProduction;
                    degradation := Math_round (degradation * lit 10) / lit 10;
                    status := if efficiency' >=? lit 60 then "Bon"
                              else if efficiency' >=? lit 45 then "Acceptable"
                              else "À remplacer" |} ])
        end
      else Returned data
  end.

(** The loop runs for the years 0..maxYears, so [maxYears + 1] turns and
    one more test of its guard. *)
Definition generateYearlyEvolution (baseInputs : Inputs num) (maxYears : Z)
  : Completion (list (YearRecord num)) :=
  evolution_loop (S (Z.to_nat (maxYears + 1))) baseInputs maxYears 0 [].

(** Default parameter [maxYears = 35]. *)
Definition generateYearlyEvolution_default (baseInputs : Inputs num)
  : Completion (list (YearRecord num)) :=
  generateYearlyEvolution baseInputs 35.

(** *** src/App.jsx: maintenance comparison *)

Definition scenarios : list (Scenario num) :=
  [ {| name := "Sans entretien"; soilingDecay := lit 0.015; maintenanceBonus := lit 0 |};
    {| name := "Entretien minimal"; soilingDecay := lit 0.008; maintenanceBonus := lit 0.002 |};
    {| name := "Entretien régulier"; soilingDecay := lit 0.003; maintenanceBonus := lit 0.005 |};
    {| name := "Entretien optimal"; soilingDecay := lit 0; maintenanceBonus := lit 0.008 |} ].

Definition years : list Z := [0; 5; 10; 15; 20; 25; 30]%Z.

Definition initialInputs (baseInputs : Inputs num) : Inputs num :=
  with_maintenance_count
    (with_soiling_ratio (with_panel_age baseInputs (lit 0)) (lit 0.85))
    (lit 0).

Definition initialResult (baseInputs : Inputs num) : Prediction num :=
  predict (initialInputs baseInputs).

Definition initialEfficiency (baseInputs : Inputs num) : num :=
  Math_round (efficiency (initialResult baseInputs) * lit 1000) / lit 10.

(** The value one scenario gets at a year other than 0; [efficiency'] is
    the source's local [efficiency]. *)
Definition scenario_value (baseInputs : Inputs num) (year : Z)
    (scenario : Scenario num) : num :=
  let soilingAfterYears :=
    Math_max (lit 0.4) (lit 0.85 - soilingDecay scenario * of_int year) in
  let inputs :=
    with_maintenance_count
      (with_soiling_ratio (with_panel_age baseInputs (of_int year)) soilingAfterYears)
      (Math_min (of_int year) (lit 10)) in
  let result := predict inputs in
  let efficiency' := efficiency result + maintenanceBonus scenario * of_int year in
  let efficiency' := Math_min efficiency' (efficiency (initialResult baseInputs)) in
  Math_round (efficiency' * lit 1000) / lit 10.

(** The callback of [years.map]; each [scenarios.forEach] is a fold that
    assigns one property per scenario. *)
Definition comparison_point (baseInputs : Inputs num) (year : Z) : Obj num :=
  let dataPoint : Obj num := [("year"%string, Str (show_int year ++ " ans"))] in
  if (year =? 0)%Z then
    fold_left
      (fun dataPoint scenario =>
         obj_set dataPoint (name scenario) (Num (initialEfficiency baseInputs)))
      scenarios dataPoint
  else
    fold_left
      (fun dataPoint scenario =>
         obj_set dataPoint (name scenario)
           (Num (scenario_value baseInputs year scenario)))
      scenarios dataPoint.

Definition generateMaintenanceComparison (baseInputs : Inputs num) : list (Obj num) :=
  map (comparison_point baseInputs) years.

(** *** src/App.jsx: the prediction gateway *)

(** The component state that [checkApi] and [handlePredict] write. *)
Record AppState : Type := mkAppState {
  prediction : option (Prediction num);
  isLoading : bool;
  apiStatus : ApiStatus;
  error : option string
}.

(** Initial [useState] values. *)
Definition initialState : AppState :=
  {| prediction := None; isLoading := false; apiStatus := checking; error := None |}.

(** [checkApi], given how [solarApi.healthCheck()] settles. *)
Definition checkApi (health : Settled unit) (st : AppState) : AppState :=
  match health with
  | Resolved _ =>
      {| prediction := prediction st; isLoading := isLoading st;
         apiStatus := connected; error := error st |}
  | Rejected _ =>
      {| prediction := prediction st; isLoading := isLoading st;
         apiStatus := disconnected; error := error st |}
  end.

(** [handlePredict], given how [solarApi.predict(inputs)] settles when it
    is called.  The state is threaded through the setter calls in source
    order; the 500 ms pause of the local branch has no effect on it. *)
Definition handlePredict (remote : Inputs num -> Settled (Prediction num))
    (inputs : Inputs num) (st : AppState) : AppState :=
  let st := {| prediction := prediction st; isLoading := true;
               apiStatus := apiStatus st; error := None |} in
  let st :=
    match apiStatus st with
    | connected =>
        match remote inputs with
        | Resolved result =>
            {| prediction := Some result; isLoading := isLoading st;
               apiStatus := apiStatus st; error := error st |}
        | Rejected message =>
            {| prediction := Some (predict inputs); isLoading := isLoading st;
               apiStatus := apiStatus st; error := Some message |}
        end
    | _ =>
        {| prediction := Some (predict inputs); isLoading := isLoading st;
           apiStatus := apiStatus st; error := error st |}
    end in
  {| prediction := prediction st; isLoading := false;
     apiStatus := apiStatus st; error := error st |}.

End Program.

Arguments AppState num : clear implicits.

(** ** Auxiliary definitions *)

Section Unrolled.

Context {num : Type} `{JsNumber num}.
Local Open Scope js_scope.

(** The unrounded percentage the loop computes at [year]:
    the local [efficiency] of [generateYearlyEvolution]. *)
Definition percent_at (baseInputs : Inputs num) (year : Z) : num :=
  efficiency (predict (with_panel_age baseInputs (of_int year))) * lit 100.

(** The object pushed at [year] once [initialEfficiency] is known. *)
Definition year_record (baseInputs : Inputs num) (year : Z) (initialEfficiency : num)
  : YearRecord num :=
  let result := predict (with_panel_age baseInputs (of_int year)) in
  let efficiency' := percent_at baseInputs year in
  let annualProduction := (lit 400 * lit 1500 * efficiency result) / lit 1000 in
  let degradation := ((initialEfficiency - efficiency') / initialEfficiency) * lit 100 in
  {| year := year;
     yearLabel := "Année " ++ show_int year;
     yr_efficiency := Math_round (efficiency' * lit 10) / lit 10;
     production := Math_round annualProduction;
     degradation := Math_round (degradation * lit 10) / lit 10;
     status := if efficiency' >=? lit 60 then "Bon"
               else if efficiency' >=? lit 45 then "Acceptable"
               else "À remplacer" |}.

(** The [k]-th element of the array: year 0 is normalised against its own
    unrounded percentage, later years against the rounded
    [data[0].efficiency]. *)
Definition evolution_record (baseInputs : Inputs num) (k : nat) : YearRecord num :=
  year_record baseInputs (Z.of_nat k)
    match k with
    | O => percent_at baseInputs 0
    | S _ => yr_efficiency (year_record baseInputs 0 (percent_at baseInputs 0))
    end.

(** What [comparison_point] stores under a scenario name. *)
Definition point_value (baseInputs : Inputs num) (year : Z) (scenario : Scenario num)
  : num :=
  if (year =? 0)%Z then initialEfficiency baseInputs
  else scenario_value baseInputs year scenario.

(** The four elements of [scenarios], by position. *)
Definition sans_entretien : Scenario num := nth 0 scenarios (mkScenario "" (lit 0) (lit 0)).
Definition entretien_minimal : Scenario num := nth 1 scenarios (mkScenario "" (lit 0) (lit 0)).
Definition entretien_regulier : Scenario num := nth 2 scenarios (mkScenario "" (lit 0) (lit 0)).
Definition entretien_optimal : Scenario num := nth 3 scenarios (mkScenario "" (lit 0) (lit 0)).

End Unrolled.

(** *** The estimator as the specification words it *)

Section Specification.

Context {num : Type} `{JsNumber num}.
Local Open Scope js_scope.

(** [clamp(x, lo, hi)] of the specification. *)
Definition clamp (x lo hi : num) : num := Math_max lo (Math_min hi x).

(** The efficiency formula of the specification, term for term. *)
Definition spec_efficiency (p : Inputs num) : num :=
  clamp (lit 0.3
         + (irradiance p / lit 1000) * lit 0.35
         + soiling_ratio p * lit 0.15
         - (panel_age p / lit 35) * lit 0.08
         - Math_max (lit 0) (temperature p - lit 25) / lit 100 * lit 0.03
         - (humidity p / lit 100) * lit 0.02
         - (cloud_coverage p / lit 100) * lit 0.02)
        (lit 0.1) (lit 0.85).

End Specification.

(** *** Binary64 values as the specification of the primitives has them *)

(** A value that carries the sign [s]: finite and not zero, or infinite. *)
Definition signed (s : bool) (x : spec_float) : Prop :=
  match x with
  | S754_finite s' _ _ => s' = s
  | S754_infinity s' => s' = s
  | _ => False
  end.

(** The number 25: mantissa 25 * 2^48, exponent -48. *)
Definition c25 : spec_float := S754_finite false 7036874417766400 (-48).

(** *** Exact reading *)

Local Open Scope Q_scope.

(** The value assigned to [efficiency] just before the clamp. *)
Definition unclamped (p : Inputs Q) : Q :=
  let e := 0.3 + (irradiance p / 1000) * 0.35 + soiling_ratio p * 0.15
           - (panel_age p / 35) * 0.08 in
  let e := if Qltb 25 (temperature p)
           then e - ((temperature p - 25) / 100) * 0.03 else e in
  e - (humidity p / 100) * 0.02 - (cloud_coverage p / 100) * 0.02.

(** Rounding to [digits] decimals as the charts do:
    [Math.round(x * 10^digits) / 10^digits]. *)
Definition round_to (digits : nat) (x : Q) : Q :=
  Qround_half_up (x * inject_Z (10 ^ Z.of_nat digits)) / inject_Z (10 ^ Z.of_nat digits).

(** *** Sample parameter vectors *)

Section Samples.

Context {num : Type} `{JsNumber num}.

(** The specification's example; the last six values are the
    application's defaults. *)
Definition example_inputs : Inputs num :=
  {| irradiance := lit 500; soiling_ratio := lit 0.7; panel_age := lit 10;
     temperature := lit 25; humidity := lit 50; cloud_coverage := lit 30;
     module_temperature := lit 35; wind_speed := lit 7; voltage := lit 30;
     current := lit 2; pressure := lit 1013; maintenance_count := lit 3 |}.

(** Slider positions at which a new panel sits at 59.98 %. *)
Definition borderline_inputs : Inputs num :=
  {| irradiance := lit 700; soiling_ratio := lit 0.48; panel_age := lit 0;
     temperature := lit 29; humidity := lit 50; cloud_coverage := lit 30;
     module_temperature := lit 35; wind_speed := lit 7; voltage := lit 30;
     current := lit 2; pressure := lit 1013; maintenance_count := lit 3 |}.

(** Slider positions at which a new panel sits at 44.96 %. *)
Definition borderline_replace_inputs : Inputs num :=
  {| irradiance := lit 180; soiling_ratio := lit 0.7; panel_age := lit 0;
     temperature := lit 25; humidity := lit 62; cloud_coverage := lit 30;
     module_temperature := lit 35; wind_speed := lit 7; voltage := lit 30;
     current := lit 2; pressure := lit 1013; maintenance_count := lit 3 |}.

(** The slider positions with the lowest estimate: no irradiance, the
    dirtiest and oldest panel, the hottest, dampest and cloudiest
    weather. *)
Definition least_favourable_inputs : Inputs num :=
  {| irradiance := lit 0; soiling_ratio := lit 0.3; panel_age := lit 35;
     temperature := lit 50; humidity := lit 100; cloud_coverage := lit 100;
     module_temperature := lit 35; wind_speed := lit 7; voltage := lit 30;
     current := lit 2; pressure := lit 1013; maintenance_count := lit 3 |}.

(** The example with every key the estimator does not read changed. *)
Definition example_inputs_other_aux : Inputs num :=
  {| irradiance := lit 500; soiling_ratio := lit 0.7; panel_age := lit 10;
     temperature := lit 25; humidity := lit 50; cloud_coverage := lit 30;
     module_temperature := lit 60; wind_speed := lit 0; voltage := lit 12;
     current := lit 9; pressure := lit 950; maintenance_count := lit 0 |}.

End Samples.

(** ** The rest of the program *)

(** *** src/services/api.js: the HTTP client *)

(** [error.response.data.detail], as far as [||] and [new Error] look at
    it: the key is absent, or it holds a string, or it holds another JSON
    value, of which only the truthiness and the conversion to a string
    matter ([null], [0] and [false] are falsy, the empty list is truthy
    and converts to the empty string, a list of objects to
    [[object Object]]), or it holds an object that cannot be converted
    (its own [toString] and [valueOf] keys hold JSON values, not
    functions), on which [new Error] throws a TypeError. *)
Inductive Detail : Type :=
| detail_absent
| detail_string (s : string)
| detail_other (truthy : bool) (text : string)
| detail_unconvertible (type_error : string).

(** [error.response.data]: [null] or [undefined], on which reading
    [detail] throws a TypeError (with the message [type_error], which the
    engine chooses), or any other value. *)
Inductive ResponseData : Type :=
| data_nullish (type_error : string)
| data_holding (detail : Detail).

(** What the response interceptor reads of an axios error:
    [error.response] with its [data], and whether [error.request] is
    set. *)
Record AxiosError : Type := mkAxiosError {
  response : option ResponseData;
  request : bool
}.

(** What the rejection handler of [api.interceptors.response] throws: the
    [Error] it builds, or a TypeError raised on the way. *)
Inductive Thrown : Type :=
| thrown_Error (message : string)
| thrown_TypeError (message : string).

Definition thrown_message (thrown : Thrown) : string :=
  match thrown with
  | thrown_Error message => message
  | thrown_TypeError message => message
  end.

(** [throw new Error(detail || fallback)]. *)
Definition throw_detail_or (detail : Detail) (fallback : string) : Thrown :=
  match detail with
  | detail_absent => thrown_Error fallback
  | detail_string text => thrown_Error (if String.eqb text "" then fallback else text)
  | detail_other truthy text => thrown_Error (if truthy then text else fallback)
  | detail_unconvertible type_error => thrown_TypeError type_error
  end.

Definition interceptor (error : AxiosError) : Thrown :=
  match response error with
  | Some (data_nullish type_error) => thrown_TypeError type_error
  | Some (data_holding detail) => throw_detail_or detail "Erreur serveur"
  | None =>
      if request error
      then thrown_Error "Le serveur ne répond pas. Il se réveille peut-être (30s max)..."
      else thrown_Error "Erreur de configuration de la requête"
  end.

(** The [message] of what was thrown, which the caller reads. *)
Definition interceptor_message (error : AxiosError) : string :=
  thrown_message (interceptor error).

(** How a request made through [api] ends before the interceptors run. *)
Inductive HttpOutcome (T : Type) : Type :=
| Fulfilled (data : T)
| Failed (error : AxiosError).

Arguments Fulfilled {T} data.
Arguments Failed {T} error.

(** [solarApi.predict]: [response.data], or the interceptor's error. *)
Definition solarApi_predict {T : Type} (outcome : HttpOutcome T) : Settled T :=
  match outcome with
  | Fulfilled data => Resolved data
  | Failed error => Rejected (interceptor_message error)
  end.

(** [solarApi.healthCheck], of the same shape. *)
Definition solarApi_healthCheck {T : Type} (outcome : HttpOutcome T) : Settled T :=
  match outcome with
  | Fulfilled data => Resolved data
  | Failed error => Rejected (interceptor_message error)
  end.

(** *** src/App.jsx: configuration and the parameter state *)

(** A slider of [FEATURES_CONFIG]; the presentation keys (label, unit,
    icon, gradient, description, color) carry no computation. *)
Record FeatureConfig (num : Type) : Type := mkFeatureConfig {
  cfg_key : string;
  cfg_min : num;
  cfg_max : num;
  cfg_step : num;
  cfg_default : num
}.

Arguments mkFeatureConfig {num} _ _ _ _ _.
Arguments cfg_key {num} _.
Arguments cfg_min {num} _.
Arguments cfg_max {num} _.
Arguments cfg_step {num} _.
Arguments cfg_default {num} _.

(** What the degradation cards show for the remaining years. *)
Inductive Remaining (num : Type) : Type :=
| ans_restants (n : num)
| a_remplacer.

Arguments ans_restants {num} n.
Arguments a_remplacer {num}.

(** The values [DegradationStats] renders, in card order.  [sv_average] is
    the number handed to [toFixed(2)] (or the literal 0). *)
Record StatsView (num : Type) : Type := mkStatsView {
  sv_efficiency : num;
  sv_age : num;
  sv_degradation : num;
  sv_average : num;
  sv_life : string;
  sv_remaining : Remaining num;
  sv_production : num
}.

Arguments mkStatsView {num} _ _ _ _ _ _ _.
Arguments sv_efficiency {num} _.
Arguments sv_age {num} _.
Arguments sv_degradation {num} _.
Arguments sv_average {num} _.
Arguments sv_life {num} _.
Arguments sv_remaining {num} _.
Arguments sv_production {num} _.

(** [array.findIndex(f)], counting from [i]. *)
Fixpoint findIndex_from {A : Type} (f : A -> bool) (l : list A) (i : Z) : Z :=
  match l with
  | [] => (-1)%Z
  | x :: rest => if f x then i else findIndex_from f rest (i + 1)%Z
  end.

Definition findIndex {A : Type} (f : A -> bool) (l : list A) : Z :=
  findIndex_from f l 0.

Section Interface.

Context {num : Type} `{JsNumber num}.
Local Open Scope js_scope.

(** [a === b] on numbers: false on NaN, true on 0 and -0. *)
Definition strict_eq (a b : num) : bool := num_leb a b && num_leb b a.

(** [x || fallback] on a number: 0, -0 and NaN are falsy. *)
Definition or_number (x fallback : num) : num :=
  if (x <? lit 0) || (x >? lit 0) then x else fallback.

Definition FEATURES_CONFIG : list (FeatureConfig num) :=
  [ mkFeatureConfig "irradiance" (lit 0) (lit 1200) (lit 10) (lit 500);
    mkFeatureConfig "soiling_ratio" (lit 0.3) (lit 1) (lit 0.01) (lit 0.7);
    mkFeatureConfig "panel_age" (lit 0) (lit 35) (lit 1) (lit 10);
    mkFeatureConfig "temperature" (lit (-10)) (lit 50) (lit 1) (lit 25);
    mkFeatureConfig "humidity" (lit 0) (lit 100) (lit 1) (lit 50);
    mkFeatureConfig "cloud_coverage" (lit 0) (lit 100) (lit 1) (lit 30);
    mkFeatureConfig "module_temperature" (lit 0) (lit 65) (lit 1) (lit 35);
    mkFeatureConfig "wind_speed" (lit 0) (lit 15) (lit 0.5) (lit 7) ].

Definition ADDITIONAL_FEATURES : list (string * num) :=
  [ ("voltage"%string, lit 30); ("current"%string, lit 2);
    ("pressure"%string, lit 1013); ("maintenance_count"%string, lit 3) ].

(** The initialiser of the [inputs] state: two [forEach] loops over an
    empty object. *)
Definition initial_inputs : Obj num :=
  let initial : Obj num := [] in
  let initial :=
    fold_left (fun initial f => obj_set initial (cfg_key f) (Num (cfg_default f)))
      FEATURES_CONFIG initial in
  fold_left (fun initial f => obj_set initial (fst f) (Num (snd f)))
    ADDITIONAL_FEATURES initial.

(** [updateInput]: [{...prev, [key]: value}]. *)
Definition updateInput (key : string) (value : num) (prev : Obj num) : Obj num :=
  obj_set prev key (Num value).

(** A numeric property of the parameter object. *)
Definition get_number (obj : Obj num) (key : string) : option num :=
  match obj_get obj key with
  | Some (Num n) => Some n
  | _ => None
  end.

(** The parameter object as the record the estimator reads, when all
    twelve keys hold numbers. *)
Definition read_inputs (obj : Obj num) : option (Inputs num) :=
  match get_number obj "irradiance" with None => None | Some v1 =>
  match get_number obj "soiling_ratio" with None => None | Some v2 =>
  match get_number obj "panel_age" with None => None | Some v3 =>
  match get_number obj "temperature" with None => None | Some v4 =>
  match get_number obj "humidity" with None => None | Some v5 =>
  match get_number obj "cloud_coverage" with None => None | Some v6 =>
  match get_number obj "module_temperature" with None => None | Some v7 =>
  match get_number obj "wind_speed" with None => None | Some v8 =>
  match get_number obj "voltage" with None => None | Some v9 =>
  match get_number obj "current" with None => None | Some v10 =>
  match get_number obj "pressure" with None => None | Some v11 =>
  match get_number obj "maintenance_count" with None => None | Some v12 =>
    Some (mkInputs v1 v2 v3 v4 v5 v6 v7 v8 v9 v10 v11 v12)
  end end end end end end end end end end end end.

(** Whether every slider key holds a number between the slider's [min]
    and [max]. *)
Definition in_slider_ranges (obj : Obj num) : bool :=
  forallb
    (fun f =>
       match get_number obj (cfg_key f) with
       | Some v => num_leb (cfg_min f) v && num_leb v (cfg_max f)
       | None => false
       end)
    FEATURES_CONFIG.

Definition with_temperature (inputs : Inputs num) (v : num) : Inputs num :=
  mkInputs (irradiance inputs) (soiling_ratio inputs) (panel_age inputs) v
    (humidity inputs) (cloud_coverage inputs) (module_temperature inputs)
    (wind_speed inputs) (voltage inputs) (current inputs) (pressure inputs)
    (maintenance_count inputs).

Definition with_humidity (inputs : Inputs num) (v : num) : Inputs num :=
  mkInputs (irradiance inputs) (soiling_ratio inputs) (panel_age inputs)
    (temperature inputs) v (cloud_coverage inputs) (module_temperature inputs)
    (wind_speed inputs) (voltage inputs) (current inputs) (pressure inputs)
    (maintenance_count inputs).

Definition with_cloud_coverage (inputs : Inputs num) (v : num) : Inputs num :=
  mkInputs (irradiance inputs) (soiling_ratio inputs) (panel_age inputs)
    (temperature inputs) (humidity inputs) v (module_temperature inputs)
    (wind_speed inputs) (voltage inputs) (current inputs) (pressure inputs)
    (maintenance_count inputs).

Definition with_module_temperature (inputs : Inputs num) (v : num) : Inputs num :=
  mkInputs (irradiance inputs) (soiling_ratio inputs) (panel_age inputs)
    (temperature inputs) (humidity inputs) (cloud_coverage inputs) v
    (wind_speed inputs) (voltage inputs) (current inputs) (pressure inputs)
    (maintenance_count inputs).

Definition with_wind_speed (inputs : Inputs num) (v : num) : Inputs num :=
  mkInputs (irradiance inputs) (soiling_ratio inputs) (panel_age inputs)
    (temperature inputs) (humidity inputs) (cloud_coverage inputs)
    (module_temperature inputs) v (voltage inputs) (current inputs)
    (pressure inputs) (maintenance_count inputs).

(** [{...inputs, [key]: v}] on the record, for the key of a slider. *)
Definition with_key (inputs : Inputs num) (key : string) (v : num) : Inputs num :=
  if String.eqb key "irradiance" then with_irradiance inputs v
  else if String.eqb key "soiling_ratio" then with_soiling_ratio inputs v
  else if String.eqb key "panel_age" then with_panel_age inputs v
  else if String.eqb key "temperature" then with_temperature inputs v
  else if String.eqb key "humidity" then with_humidity inputs v
  else if String.eqb key "cloud_coverage" then with_cloud_coverage inputs v
  else if String.eqb key "module_temperature" then with_module_temperature inputs v
  else if String.eqb key "wind_speed" then with_wind_speed inputs v
  else inputs.

(** *** src/App.jsx: the gauge *)

(** [EfficiencyGauge]: [percentage], then [getColor] (main and glow) and
    [getLabel] (text and emoji). *)
Definition gauge_percentage (value : num) : num := value * lit 100.

Definition getColor (percentage : num) : string * string :=
  if percentage <? lit 30 then ("#ef4444", "rgba(239, 68, 68, 0.3)")%string
  else if percentage <? lit 50 then ("#f59e0b", "rgba(245, 158, 11, 0.3)")%string
  else if percentage <? lit 70 then ("#22c55e", "rgba(34, 197, 94, 0.3)")%string
  else ("#10b981", "rgba(16, 185, 129, 0.3)")%string.

Definition getLabel (percentage : num) : string * string :=
  if percentage <? lit 30 then ("Faible", "⚠️")%string
  else if percentage <? lit 50 then ("Modérée", "📊")%string
  else if percentage <? lit 70 then ("Bonne", "✅")%string
  else ("Excellente", "🌟")%string.

(** The [value] prop the application passes:
    [prediction?.efficiency || 0]. *)
Definition gauge_value (prediction : option (Prediction num)) : num :=
  match prediction with
  | Some result => or_number (efficiency result) (lit 0)
  | None => lit 0
  end.

(** [StatusBadge]: the text of the badge. *)
Definition StatusBadge (apiStatus : ApiStatus) : string :=
  let isConnected := match apiStatus with connected => true | _ => false end in
  if isConnected then "API connectée" else "Mode simulation".

(** *** src/App.jsx: the degradation cards *)

(** [data.find(d => d.year === currentAge) || data[0]] *)
Definition currentData (data : list (YearRecord num)) (currentAge : num)
  : option (YearRecord num) :=
  match find (fun d => strict_eq (of_int (year d)) currentAge) data with
  | Some d => Some d
  | None => nth_error data 0
  end.

Definition initialData (data : list (YearRecord num)) : option (YearRecord num) :=
  nth_error data 0.

(** [data.findIndex(d => d.efficiency < 50)] *)
Definition lifeExpectancy (data : list (YearRecord num)) : Z :=
  findIndex (fun d => yr_efficiency d <? lit 50) data.

Definition yearsRemaining (data : list (YearRecord num)) (currentAge : num) : num :=
  if of_int (lifeExpectancy data) >? currentAge
  then of_int (lifeExpectancy data) - currentAge
  else lit 0.

(** [DegradationStats].  The unused [year10Data] and [year25Data] are
    left out; reading a key of the absent [data[0]] throws. *)
Definition DegradationStats (data : list (YearRecord num)) (currentAge : num)
  : Completion (StatsView num) :=
  match currentData data currentAge, initialData data with
  | Some current, Some initial =>
      let avgDegradationPerYear :=
        if currentAge >? lit 0
        then (yr_efficiency initial - yr_efficiency current) / currentAge
        else lit 0 in
      Returned
        {| sv_efficiency := yr_efficiency current;
           sv_age := currentAge;
           sv_degradation := degradation current;
           sv_average := avgDegradationPerYear;
           sv_life := (if (lifeExpectancy data >? 0)%Z
                       then show_int (lifeExpectancy data) else "35+") ++ " ans";
           sv_remaining := if yearsRemaining data currentAge >? lit 0
                           then ans_restants (yearsRemaining data currentAge)
                           else a_remplacer;
           sv_production := production current |}
  | _, _ => TypeError
  end.

End Interface.

(** ** Facts that hold in every reading of the numbers *)

Section AnyNumber.

Context {num : Type} `{JsNumber num}.
Local Open Scope js_scope.

Lemma seq_snoc (k : nat) : seq 0 (S k) = (seq 0 k ++ [k])%list.
Proof. rewrite seq_S. reflexivity. Qed.

(** One turn of the loop whose guard holds, with the array built so far. *)
Lemma evolution_loop_step (fuel : nat) (baseInputs : Inputs num) (maxYears : Z) (k : nat) :
  (Z.of_nat k <= maxYears)%Z ->
  evolution_loop (S fuel) baseInputs maxYears (Z.of_nat k)
    (map (evolution_record baseInputs) (seq 0 k))
  = evolution_loop fuel baseInputs maxYears (Z.of_nat (S k))
      (map (evolution_record baseInputs) (seq 0 (S k))).
Proof.
  intros Hle. cbn [evolution_loop].
  apply Z.leb_le in Hle. rewrite Hle.
  rewrite seq_snoc, map_app. cbn [map].
  replace (Z.of_nat (S k)) with (Z.of_nat k + 1)%Z by lia.
  destruct k as [|k'].
  - reflexivity.
  - replace (Z.of_nat (S k') =? 0)%Z with false by (symmetry; apply Z.eqb_neq; lia).
    reflexivity.
Qed.

Lemma evolution_loop_exit (fuel : nat) (baseInputs : Inputs num) (maxYears year : Z)
    (data : list (YearRecord num)) :
  (maxYears < year)%Z ->
  evolution_loop (S fuel) baseInputs maxYears year data = Returned data.
Proof.
  intros Hlt. cbn [evolution_loop].
  apply Z.leb_gt in Hlt. rewrite Hlt. reflexivity.
Qed.

Lemma evolution_loop_run (n : nat) :
  forall (baseInputs : Inputs num) (maxYears : Z) (k : nat),
    Z.to_nat (maxYears + 1 - Z.of_nat k) = n ->
    evolution_loop (S n) baseInputs maxYears (Z.of_nat k)
      (map (evolution_record baseInputs) (seq 0 k))
    = Returned (map (evolution_record baseInputs) (seq 0 (k + n))).
Proof.
  induction n as [|n IH]; intros baseInputs maxYears k Hn.
  - rewrite evolution_loop_exit by lia. rewrite Nat.add_0_r. reflexivity.
  - rewrite evolution_loop_step by lia.
    rewrite IH by lia. f_equal. f_equal. f_equal. lia.
Qed.

(** The loop terminates for every [maxYears] and returns one record per
    year, in order. *)
Lemma generateYearlyEvolution_unrolled (baseInputs : Inputs num) (maxYears : Z) :
  generateYearlyEvolution baseInputs maxYears
  = Returned (map (evolution_record baseInputs) (seq 0 (Z.to_nat (maxYears + 1)))).
Proof.
  unfold generateYearlyEvolution.
  apply (evolution_loop_run (Z.to_nat (maxYears + 1)) baseInputs maxYears 0).
  f_equal. simpl. lia.
Qed.

Lemma comparison_point_unrolled (baseInputs : Inputs num) (year : Z) :
  comparison_point baseInputs year
  = [ ("year"%string, Str (show_int year ++ " ans"));
      ("Sans entretien"%string, Num (point_value baseInputs year sans_entretien));
      ("Entretien minimal"%string, Num (point_value baseInputs year entretien_minimal));
      ("Entretien régulier"%string, Num (point_value baseInputs year entretien_regulier));
      ("Entretien optimal"%string, Num (point_value baseInputs year entretien_optimal)) ].
Proof.
  unfold comparison_point, point_value.
  destruct (year =? 0)%Z; reflexivity.
Qed.

Lemma predict_reads_six (p q : Inputs num) :
  irradiance p = irradiance q ->
  soiling_ratio p = soiling_ratio q ->
  panel_age p = panel_age q ->
  temperature p = temperature q ->
  humidity p = humidity q ->
  cloud_coverage p = cloud_coverage q ->
  predict p = predict q.
Proof.
  intros Hi Hs Ha Ht Hh Hc. unfold predict.
  rewrite Hi, Hs, Ha, Ht, Hh, Hc. reflexivity.
Qed.

End AnyNumber.

(** ** Facts of the exact reading *)


Lemma Qltb_lt (x y : Q) : Qltb x y = true <-> x < y.
Proof.
  unfold Qltb. rewrite negb_true_iff.
  split; intros Hxy.
  - apply Qnot_le_lt. intros Hle. apply Qle_bool_iff in Hle. congruence.
  - apply not_true_is_false. intros Hle. apply Qle_bool_iff in Hle.
    exact (Qlt_not_le _ _ Hxy Hle).
Qed.

Lemma Qltb_ge (x y : Q) : Qltb x y = false <-> y <= x.
Proof.
  unfold Qltb. rewrite negb_false_iff. apply Qle_bool_iff.
Qed.

Lemma Qle_bool_gt (x y : Q) : Qle_bool x y = false <-> y < x.
Proof.
  rewrite <- Qltb_lt. unfold Qltb. rewrite negb_true_iff. reflexivity.
Qed.

(** Division by a numeral is multiplication by its inverse numeral:
    brings a goal into the linear fragment. *)
Ltac literal_div :=
  unfold Qdiv in *;
  repeat match goal with
    | |- context [ / (Qmake ?n ?d) ] =>
        let v := eval cbv in (/ (Qmake n d)) in change (/ (Qmake n d)) with v
    | Hyp : context [ / (Qmake ?n ?d) ] |- _ =>
        let v := eval cbv in (/ (Qmake n d)) in change (/ (Qmake n d)) with v in Hyp
    end.

Ltac case_Qltb :=
  repeat match goal with
    | |- context [ Qltb ?a ?b ] =>
        let Hcmp := fresh "Hcmp" in
        destruct (Qltb a b) eqn:Hcmp;
        [ apply Qltb_lt in Hcmp | apply Qltb_ge in Hcmp ]
    end.

(** Case analysis on every [Qmax] and [Qmin] of the goal; each is then
    an atom tied to its arguments by an equation. *)
Ltac split_max a b :=
  let Hm := fresh "Hm" in
  let m := fresh "m" in
  pose proof (Q.max_spec a b) as Hm;
  set (m := Qmax a b) in *; clearbody m;
  destruct Hm as [[? ?] | [? ?]].

Ltac split_min a b :=
  let Hm := fresh "Hm" in
  let m := fresh "m" in
  pose proof (Q.min_spec a b) as Hm;
  set (m := Qmin a b) in *; clearbody m;
  destruct Hm as [[? ?] | [? ?]].

Ltac case_minmax :=
  repeat match goal with
    | |- context [ Qmax ?a ?b ] => split_max a b
    | |- context [ Qmin ?a ?b ] => split_min a b
    | _ : context [ Qmax ?a ?b ] |- _ => split_max a b
    | _ : context [ Qmin ?a ?b ] |- _ => split_min a b
    end.

Lemma predict_efficiency (p : Inputs Q) :
  efficiency (predict p) = Qmax 0.1 (Qmin 0.85 (unclamped p)).
Proof. reflexivity. Qed.

Lemma clamp_range (x : Q) : 0.1 <= Qmax 0.1 (Qmin 0.85 x) <= 0.85.
Proof.
  case_minmax; lra.
Qed.

Lemma clamp_monotone (x y : Q) :
  x <= y -> Qmax 0.1 (Qmin 0.85 x) <= Qmax 0.1 (Qmin 0.85 y).
Proof.
  intros Hxy. case_minmax; lra.
Qed.

(** Before the clamp the model is monotone in each of the six inputs it
    reads: increasing in irradiance and cleanliness, decreasing in the
    other four. *)
Lemma unclamped_monotone (p q : Inputs Q) :
  irradiance p <= irradiance q ->
  soiling_ratio p <= soiling_ratio q ->
  panel_age q <= panel_age p ->
  temperature q <= temperature p ->
  humidity q <= humidity p ->
  cloud_coverage q <= cloud_coverage p ->
  unclamped p <= unclamped q.
Proof.
  intros Hi Hs Ha Ht Hh Hc. unfold unclamped.
  case_Qltb; literal_div; lra.
Qed.

Lemma predict_monotone (p q : Inputs Q) :
  irradiance p <= irradiance q ->
  soiling_ratio p <= soiling_ratio q ->
  panel_age q <= panel_age p ->
  temperature q <= temperature p ->
  humidity q <= humidity p ->
  cloud_coverage q <= cloud_coverage p ->
  efficiency (predict p) <= efficiency (predict q).
Proof.
  intros. rewrite !predict_efficiency.
  apply clamp_monotone, unclamped_monotone; assumption.
Qed.

Lemma unclamped_spec (p : Inputs Q) :
  unclamped p ==
  0.30 + (irradiance p / 1000) * 0.35 + soiling_ratio p * 0.15
  - (panel_age p / 35) * 0.08 - Qmax 0 (temperature p - 25) / 100 * 0.03
  - (humidity p / 100) * 0.02 - (cloud_coverage p / 100) * 0.02.
Proof.
  unfold unclamped. case_Qltb; case_minmax; literal_div; lra.
Qed.

(** Unfolds the number interface at the exact reading. *)
Ltac exact_reading :=
  cbv [lit of_int num_add num_sub num_mul num_div num_ltb num_leb
       Math_max Math_min Math_round Q_JsNumber] in *.

Ltac case_Qle_bool :=
  repeat match goal with
    | |- context [ Qle_bool ?a ?b ] =>
        let Hcmp := fresh "Hcmp" in
        destruct (Qle_bool a b) eqn:Hcmp;
        [ apply Qle_bool_iff in Hcmp | apply Qle_bool_gt in Hcmp ]
    end.

(** Closed comparisons and equations between rationals. *)
Ltac Qdecide :=
  vm_compute; first [ reflexivity | discriminate | intuition discriminate ].

Lemma Qround_half_up_monotone (x y : Q) :
  x <= y -> Qround_half_up x <= Qround_half_up y.
Proof.
  intros Hxy. unfold Qround_half_up.
  rewrite <- Zle_Qle. apply Qfloor_resp_le. lra.
Qed.

Lemma Qround_half_up_zero (x : Q) : x == 0 -> Qround_half_up x == 0.
Proof.
  intros Hx. unfold Qround_half_up.
  assert (Hfloor : Qfloor (x + (1 # 2)) = Qfloor (1 # 2)).
  { apply Qfloor_comp. lra. }
  rewrite Hfloor. reflexivity.
Qed.


(** The estimator's result in the exact reading: the specification's
    formula, up to equality of rationals. *)
Lemma predict_matches_specification_exact (p : Inputs Q) :
  efficiency (predict p) == spec_efficiency p.
Proof.
  rewrite predict_efficiency. unfold spec_efficiency, clamp. exact_reading.
  apply Q.max_compat; [ reflexivity | ].
  apply Q.min_compat; [ reflexivity | ].
  rewrite unclamped_spec.
  set (excess := Qmax 0 (temperature p - 25)). literal_div. lra.
Qed.

(** ** Facts of the binary64 reading *)

Section Binary64Facts.

Local Open Scope Z_scope.

Lemma digits2_pos_bounds (m : positive) :
  2 ^ (Zpos (digits2_pos m) - 1) <= Zpos m < 2 ^ Zpos (digits2_pos m).
Proof.
  induction m as [m IH|m IH|].
  - cbn [digits2_pos]. rewrite Pos2Z.inj_succ.
    replace (Z.succ (Zpos (digits2_pos m)) - 1) with (Z.succ (Zpos (digits2_pos m) - 1)) by lia.
    rewrite !Z.pow_succ_r by lia. lia.
  - cbn [digits2_pos]. rewrite Pos2Z.inj_succ.
    replace (Z.succ (Zpos (digits2_pos m)) - 1) with (Z.succ (Zpos (digits2_pos m) - 1)) by lia.
    rewrite !Z.pow_succ_r by lia. lia.
  - cbn. lia.
Qed.

Lemma shr_1_m (mrs : shr_record) :
  0 <= shr_m mrs -> shr_m (shr_1 mrs) = shr_m mrs / 2.
Proof.
  destruct mrs as [m r s]. cbn [shr_m shr_1]. intros Hm.
  destruct m as [|[p|p|]|p]; cbn [shr_m]; try lia;
    rewrite <- Z.div2_div; reflexivity.
Qed.

Lemma pow2_xO (p : positive) : 2 ^ Zpos p~0 = 2 ^ Zpos p * 2 ^ Zpos p.
Proof.
  replace (Zpos p~0) with (Zpos p + Zpos p) by lia.
  apply Z.pow_add_r; lia.
Qed.

Lemma pow2_xI (p : positive) : 2 ^ Zpos p~1 = 2 * (2 ^ Zpos p * 2 ^ Zpos p).
Proof.
  replace (Zpos p~1) with (Z.succ (Zpos p + Zpos p)) by lia.
  rewrite Z.pow_succ_r by lia. rewrite Z.pow_add_r by lia. reflexivity.
Qed.

Lemma iter_shr_1_m (p : positive) :
  forall mrs : shr_record,
    0 <= shr_m mrs -> shr_m (iter_pos shr_1 p mrs) = shr_m mrs / 2 ^ Zpos p.
Proof.
  assert (Hpow : forall q : positive, 0 < 2 ^ Zpos q) by (intros q; apply Z.pow_pos_nonneg; lia).
  induction p as [p IH|p IH|]; intros mrs Hm; cbn [iter_pos].
  - assert (H1 : 0 <= shr_m (shr_1 mrs)) by (rewrite shr_1_m by lia; apply Z.div_pos; lia).
    assert (H2 : 0 <= shr_m (iter_pos shr_1 p (shr_1 mrs)))
      by (rewrite IH by lia; apply Z.div_pos; [ lia | apply Hpow ]).
    rewrite IH by lia. rewrite IH by lia. rewrite shr_1_m by lia.
    specialize (Hpow p).
    rewrite pow2_xI. rewrite !Z.div_div by lia. reflexivity.
  - assert (H2 : 0 <= shr_m (iter_pos shr_1 p mrs))
      by (rewrite IH by lia; apply Z.div_pos; [ lia | apply Hpow ]).
    rewrite IH by lia. rewrite IH by lia.
    specialize (Hpow p).
    rewrite pow2_xO. rewrite !Z.div_div by lia. reflexivity.
  - rewrite shr_1_m by lia. reflexivity.
Qed.

Lemma shr_record_of_loc_m (m : Z) (l : location) : shr_m (shr_record_of_loc m l) = m.
Proof. destruct l as [|[| |]]; reflexivity. Qed.

Lemma round_nearest_even_ge (m : Z) (l : location) : m <= round_nearest_even m l.
Proof. destruct l as [|[| |]]; cbn; try destruct (Z.even m); lia. Qed.

(** No underflow to zero: a positive mantissa at an exponent not below
    the least one keeps a positive mantissa through the shift. *)
Lemma shr_fexp_positive (m : positive) (e : Z) (l : location) :
  -1074 <= e ->
  0 < shr_m (fst (shr_fexp prec emax (Zpos m) e l)) /\
  -1074 <= snd (shr_fexp prec emax (Zpos m) e l).
Proof.
  intros He. unfold shr_fexp, shr, fexp. cbn [Zdigits2].
  change (SpecFloat.emin prec emax) with (-1074). change prec with 53.
  pose proof (digits2_pos_bounds m) as [Hlow _].
  set (d := Zpos (digits2_pos m)) in *.
  destruct (Z.max (d + e - 53) (-1074) - e) as [|n|n] eqn:Hn; cbn [fst snd].
  - rewrite shr_record_of_loc_m. lia.
  - rewrite iter_shr_1_m by (rewrite shr_record_of_loc_m; lia).
    rewrite shr_record_of_loc_m. split; [ | lia ].
    apply Z.div_str_pos. split; [ apply Z.pow_pos_nonneg; lia | ].
    apply Z.le_trans with (2 ^ (d - 1)); [ | exact Hlow ].
    apply Z.pow_le_mono_r; lia.
  - rewrite shr_record_of_loc_m. lia.
Qed.

Lemma binary_round_aux_signed (sx : bool) (m : positive) (e : Z) (l : location) :
  -1074 <= e -> signed sx (binary_round_aux prec emax sx (Zpos m) e l).
Proof.
  intros He. unfold binary_round_aux.
  pose proof (shr_fexp_positive m e l He) as [Hm1 He1].
  destruct (shr_fexp prec emax (Zpos m) e l) as [mrs1 e1]. cbn [fst snd] in Hm1, He1.
  pose proof (round_nearest_even_ge (shr_m mrs1) (loc_of_shr_record mrs1)) as Hround.
  destruct (round_nearest_even (shr_m mrs1) (loc_of_shr_record mrs1)) as [|q|q]; try lia.
  pose proof (shr_fexp_positive q e1 loc_Exact He1) as [Hm2 _].
  destruct (shr_fexp prec emax (Zpos q) e1 loc_Exact) as [mrs2 e2]. cbn [fst snd] in Hm2.
  destruct (shr_m mrs2) as [|r|r]; try lia.
  destruct (e2 <=? emax - prec); reflexivity.
Qed.

Lemma iter_xO (m d : positive) : Zpos (Pos.iter xO m d) = Zpos m * 2 ^ Zpos d.
Proof.
  induction d as [|d IH] using Pos.peano_ind.
  - cbn. lia.
  - rewrite Pos.iter_succ, Pos2Z.inj_succ, Z.pow_succ_r by lia.
    rewrite Pos2Z.inj_xO, IH. lia.
Qed.

Lemma shl_align_exponent (mx : positive) (ex ex' : Z) :
  snd (shl_align mx ex ex') = Z.min ex ex'.
Proof.
  unfold shl_align. destruct (ex' - ex) eqn:Hd; cbn [snd]; lia.
Qed.

Lemma shl_align_mantissa (mx : positive) (ex ex' : Z) :
  Zpos (fst (shl_align mx ex ex')) = Zpos mx * 2 ^ (ex - Z.min ex ex').
Proof.
  unfold shl_align. destruct (ex' - ex) as [|d|d] eqn:Hd; cbn [fst].
  - replace (ex - Z.min ex ex') with 0 by lia. lia.
  - replace (ex - Z.min ex ex') with 0 by lia. lia.
  - rewrite iter_xO. f_equal. f_equal. lia.
Qed.

Lemma binary_round_signed (sx : bool) (mx : positive) (ex : Z) :
  -1074 <= ex -> signed sx (binary_round prec emax sx mx ex).
Proof.
  intros He. unfold binary_round.
  pose proof (shl_align_exponent mx ex (SpecFloat.fexp prec emax (Zpos (digits2_pos mx) + ex))) as Hexp.
  destruct (shl_align mx ex (SpecFloat.fexp prec emax (Zpos (digits2_pos mx) + ex))) as [mz ez].
  cbn [snd] in Hexp.
  apply binary_round_aux_signed.
  unfold fexp in Hexp. change (SpecFloat.emin prec emax) with (-1074) in Hexp. lia.
Qed.

Lemma valid_finite (m : positive) (e : Z) :
  bounded prec emax m e = true ->
  -1074 <= e /\ Zpos m < 2 ^ 53 /\ (-1074 < e -> 2 ^ 52 <= Zpos m).
Proof.
  unfold bounded, canonical_mantissa, fexp.
  change (SpecFloat.emin prec emax) with (-1074). change prec with 53.
  intros Hb. apply andb_prop in Hb. destruct Hb as [Hc _].
  apply Z.eqb_eq in Hc.
  pose proof (digits2_pos_bounds m) as [Hlow Hhigh].
  set (d := Zpos (digits2_pos m)) in *.
  assert (Hd : d <= 53) by lia.
  split; [ lia | ]. split.
  - apply Z.lt_le_trans with (2 ^ d); [ exact Hhigh | ].
    apply Z.pow_le_mono_r; lia.
  - intros He. assert (Hd53 : d = 53) by lia.
    rewrite Hd53 in Hlow. exact Hlow.
Qed.

Lemma SFltb_zero_signed (s : bool) (x : spec_float) :
  signed s x -> x <> S754_nan /\ SFltb (S754_zero false) x = negb s.
Proof.
  destruct x as [s'|s'| |s' m e]; cbn [signed]; try contradiction;
    intros ->; (split; [ discriminate | destruct s; reflexivity ]).
Qed.

(** Subtracting 25 from a number: the difference is a number, and it is
    above zero exactly when the number is above 25. *)
Lemma SFsub_25 (x : spec_float) :
  SpecFloat.valid_binary prec emax x = true ->
  x <> S754_nan ->
  SF64sub x c25 <> S754_nan /\
  SFltb (S754_zero false) (SF64sub x c25) = SFltb c25 x.
Proof.
  intros Hvalid Hnan.
  destruct x as [s|s| |s m e].
  - split; [ discriminate | destruct s; reflexivity ].
  - split; [ discriminate | destruct s; reflexivity ].
  - contradiction.
  - cbn [valid_binary] in Hvalid. apply valid_finite in Hvalid.
    destruct Hvalid as (Hemin & Hhigh & Hnormal).
    unfold SF64sub, SFsub, c25.
    rewrite !shl_align_mantissa.
    set (ez := Z.min e (-48)).
    assert (Hez : -1074 <= ez) by lia.
    replace (Z.min e ez) with ez by lia.
    replace (Z.min (-48) ez) with ez by lia.
    assert (Hpow : forall k : Z, 0 <= k -> 1 <= 2 ^ k)
      by (intros k Hk; pose proof (Z.pow_pos_nonneg 2 k); lia).
    assert (Hpow1 : forall k : Z, 1 <= k -> 2 <= 2 ^ k).
    { intros k Hk. replace k with (Z.succ (k - 1)) by lia.
      rewrite Z.pow_succ_r by lia. pose proof (Hpow (k - 1)). lia. }
    set (a := Zpos m * 2 ^ (e - ez)).
    set (b := 7036874417766400 * 2 ^ (-48 - ez)).
    assert (Ha : 1 <= a).
    { unfold a. pose proof (Hpow (e - ez)). nia. }
    assert (Hb : 1 <= b).
    { unfold b. pose proof (Hpow (-48 - ez)). nia. }
    change (Zpos 7036874417766400 * 2 ^ (-48 - ez)) with b.
    change (2 ^ 53) with 9007199254740992 in Hhigh.
    change (2 ^ 52) with 4503599627370496 in Hnormal.
    assert (Hsign :
              (SFltb (S754_finite false 7036874417766400 (-48)) (S754_finite s m e) = true
               /\ 0 < cond_Zopp s a - cond_Zopp false b)
              \/ (SFltb (S754_finite false 7036874417766400 (-48)) (S754_finite s m e) = false
                  /\ cond_Zopp s a - cond_Zopp false b <= 0)).
    { unfold SFltb, SFcompare. destruct s; cbn [cond_Zopp].
      - right. split; [ reflexivity | lia ].
      - destruct (Z.compare_spec (-48) e) as [Heq | Hlt | Hgt].
        + subst e.
          assert (Hk : -48 - ez = 0) by (unfold ez; lia).
          unfold a, b. rewrite Hk. change (2 ^ 0) with 1. rewrite !Z.mul_1_r.
          cbv beta iota. rewrite Pos.compare_cont_spec. cbn [Pos.switch_Eq].
          destruct (Pos.compare_spec 7036874417766400 m) as [Hm | Hm | Hm].
          * right. split; [ reflexivity | ]. subst m. clear. lia.
          * left. split; [ reflexivity | ].
            apply Pos2Z.pos_lt_pos in Hm. clear - Hm. lia.
          * right. split; [ reflexivity | ].
            apply Pos2Z.pos_lt_pos in Hm. clear - Hm. lia.
        + left. split; [ reflexivity | ].
          assert (He : e - ez = e + 48) by lia.
          assert (Hb0 : -48 - ez = 0) by lia.
          unfold a, b. rewrite He, Hb0.
          pose proof (Hpow1 (e + 48)). assert (4503599627370496 <= Zpos m) by (apply Hnormal; lia).
          change (2 ^ 0) with 1. nia.
        + right. split; [ reflexivity | ].
          assert (He : e - ez = 0) by lia.
          assert (Hb0 : 1 <= -48 - ez) by lia.
          unfold a, b. rewrite He. change (2 ^ 0) with 1.
          pose proof (Hpow1 (-48 - ez) Hb0). nia. }
    destruct Hsign as [[-> Hpos] | [-> Hnonpos]].
    + destruct (cond_Zopp s a - cond_Zopp false b) as [|p|p] eqn:HD; try lia.
      cbn [binary_normalize].
      apply (SFltb_zero_signed false). apply binary_round_signed. exact Hez.
    + destruct (cond_Zopp s a - cond_Zopp false b) as [|p|p] eqn:HD; try lia.
      * cbn [binary_normalize]. split; [ discriminate | reflexivity ].
      * cbn [binary_normalize].
        apply (SFltb_zero_signed true). apply binary_round_signed. exact Hez.
Qed.

Lemma SFcompare_refl (x : spec_float) : x <> S754_nan -> SFcompare x x = Some Eq.
Proof.
  destruct x as [s|s| |s m e]; intros Hx.
  - reflexivity.
  - destruct s; reflexivity.
  - contradiction.
  - cbn [SFcompare]. rewrite Z.compare_refl, Pos.compare_cont_refl.
    destruct s; reflexivity.
Qed.

Lemma is_nan_false_iff (t : float) :
  PrimFloat.is_nan t = false <-> Prim2SF t <> S754_nan.
Proof.
  unfold PrimFloat.is_nan. rewrite eqb_spec. unfold SFeqb.
  destruct (Prim2SF t) as [s|s| |s m e] eqn:Ht.
  - split; [ discriminate | reflexivity ].
  - rewrite SFcompare_refl by discriminate. split; [ discriminate | reflexivity ].
  - cbn. split; [ discriminate | intros Hx; contradiction ].
  - rewrite SFcompare_refl by discriminate. split; [ discriminate | reflexivity ].
Qed.

(** Subtracting zero changes nothing, not even a negative zero. *)
Lemma sub_zero (x : float) : (x - 0)%float = x.
Proof.
  apply Prim2SF_inj. rewrite sub_spec.
  replace (Prim2SF 0) with (S754_zero false) by (vm_compute; reflexivity).
  destruct (Prim2SF x) as [[|]| | |]; reflexivity.
Qed.

Lemma sub_25 (t : float) :
  PrimFloat.is_nan t = false ->
  PrimFloat.is_nan (t - 25)%float = false /\
  (0 <? t - 25)%float = (25 <? t)%float.
Proof.
  intros Ht. apply is_nan_false_iff in Ht.
  rewrite is_nan_false_iff, !ltb_spec, sub_spec.
  replace (Prim2SF 25) with c25 by (vm_compute; reflexivity).
  replace (Prim2SF 0) with (S754_zero false) by (vm_compute; reflexivity).
  apply SFsub_25; [ apply Prim2SF_valid | exact Ht ].
Qed.

End Binary64Facts.

(** Reads the number operations at the binary64 reading. *)
Ltac binary64_ops :=
  unfold of_int in *;
  change (@lit float float_JsNumber) with Binary64.literal in *;
  change (@num_add float float_JsNumber) with PrimFloat.add in *;
  change (@num_sub float float_JsNumber) with PrimFloat.sub in *;
  change (@num_mul float float_JsNumber) with PrimFloat.mul in *;
  change (@num_div float float_JsNumber) with PrimFloat.div in *;
  change (@num_ltb float float_JsNumber) with PrimFloat.ltb in *;
  change (@num_leb float float_JsNumber) with PrimFloat.leb in *;
  change (@Math_max float float_JsNumber) with Binary64.max in *;
  change (@Math_min float float_JsNumber) with Binary64.min in *;
  change (@Math_round float float_JsNumber) with Binary64.round in *.

(** [Math.max(0, temperature - 25)] is the excess over 25 degrees when
    there is one, and zero otherwise. *)
Lemma Math_max_excess (t : float) :
  PrimFloat.is_nan t = false ->
  Binary64.max (Binary64.literal 0) (t - Binary64.literal 25)
  = if (Binary64.literal 25 <? t)%float then (t - Binary64.literal 25)%float
    else Binary64.literal 0.
Proof.
  intros Ht.
  replace (Binary64.literal 25) with 25%float by (vm_compute; reflexivity).
  replace (Binary64.literal 0) with 0%float by (vm_compute; reflexivity).
  destruct (sub_25 t Ht) as [Hnan Hcmp].
  unfold Binary64.max. rewrite Hnan, Hcmp.
  replace (PrimFloat.is_nan 0) with false by (vm_compute; reflexivity).
  reflexivity.
Qed.

(** ** The estimator *)

Local Open Scope Q_scope.

(** C2. For every parameter vector (in the exact reading every value is a
    finite number) the efficiency returned by the local estimator lies in
    the closed interval [0.10, 0.85]. *)
Theorem predict_efficiency_in_range :
  forall p : Inputs Q, 0.10 <= efficiency (predict p) <= 0.85.
Proof.
  intros p. rewrite predict_efficiency.
  pose proof (clamp_range (unclamped p)) as [Hlo Hhi].
  split; lra.
Qed.

(** C10. Two parameter vectors that agree on irradiance, soiling_ratio,
    panel_age, temperature, humidity and cloud_coverage get the same
    result from the local estimator, whatever their module_temperature,
    wind_speed, voltage, current, pressure and maintenance_count are.
    This holds in every reading of the numbers. *)
Theorem predict_ignores_auxiliary_keys :
  forall (num : Type) (N : JsNumber num) (p q : Inputs num),
    irradiance p = irradiance q ->
    soiling_ratio p = soiling_ratio q ->
    panel_age p = panel_age q ->
    temperature p = temperature q ->
    humidity p = humidity q ->
    cloud_coverage p = cloud_coverage q ->
    predict p = predict q.
Proof.
  intros num N p q. apply predict_reads_six.
Qed.

Lemma predict_ignores_auxiliary_keys_witness :
  ~ module_temperature (@example_inputs Q _) == module_temperature (@example_inputs_other_aux Q _)
  /\ ~ wind_speed (@example_inputs Q _) == wind_speed (@example_inputs_other_aux Q _)
  /\ predict (@example_inputs Q _) = predict (@example_inputs_other_aux Q _).
Proof.
  split; [ | split ].
  - discriminate.
  - discriminate.
  - apply (predict_ignores_auxiliary_keys Q Q_JsNumber); reflexivity.
Defined.

(** C1. The local estimator returns the specification's clamped linear
    model, computed in binary64 as a JavaScript engine does, for every
    parameter vector whose temperature is a number (the values of a
    parameter vector are finite numbers).  In every reading of
    the numbers the label follows the tests of the returned efficiency
    against 0.3, 0.5 and 0.7 (Faible = Low, Modérée = Moderate, Bonne =
    Good, Excellente = Excellent) and the result is tagged simulated.  On
    the specification's example vector the binary64 efficiency lies in
    [0.54105, 0.54115), which is 0.5411 to four decimals, its percentage
    rounds to 54.1, and the label is Bonne (Good). *)
Theorem predict_matches_specification :
  (forall p : Inputs float,
      PrimFloat.is_nan (temperature p) = false ->
      efficiency (predict p) = spec_efficiency p)
  /\
  (forall (num : Type) (N : JsNumber num) (p : Inputs num),
      ((efficiency (predict p) <? lit 0.3)%js = true ->
       quality_label (predict p) = "Faible"%string) /\
      ((efficiency (predict p) <? lit 0.3)%js = false ->
       (efficiency (predict p) <? lit 0.5)%js = true ->
       quality_label (predict p) = "Modérée"%string) /\
      ((efficiency (predict p) <? lit 0.3)%js = false ->
       (efficiency (predict p) <? lit 0.5)%js = false ->
       (efficiency (predict p) <? lit 0.7)%js = true ->
       quality_label (predict p) = "Bonne"%string) /\
      ((efficiency (predict p) <? lit 0.3)%js = false ->
       (efficiency (predict p) <? lit 0.5)%js = false ->
       (efficiency (predict p) <? lit 0.7)%js = false ->
       quality_label (predict p) = "Excellente"%string) /\
      confidence (predict p) = "simulated"%string)
  /\
  (forall mt ws v c pr mc : float,
      let p := {| irradiance := lit 500; soiling_ratio := lit 0.7; panel_age := lit 10;
                  temperature := lit 25; humidity := lit 50; cloud_coverage := lit 30;
                  module_temperature := mt; wind_speed := ws; voltage := v;
                  current := c; pressure := pr; maintenance_count := mc |} in
      (lit 0.54105 <=? efficiency (predict p))%float = true /\
      (efficiency (predict p) <? lit 0.54115)%float = true /\
      (Math_round (efficiency (predict p) * lit 10000) / lit 10000)%js = lit 0.5411 /\
      (Math_round (efficiency_percent (predict p) * lit 10) / lit 10)%js = lit 54.1 /\
      quality_label (predict p) = "Bonne"%string).
Proof.
  split; [ | split ].
  - intros p Ht.
    unfold spec_efficiency, clamp, predict. cbn [efficiency]. binary64_ops.
    rewrite (Math_max_excess _ Ht).
    destruct (Binary64.literal 25 <? temperature p)%float.
    + reflexivity.
    + replace (Binary64.literal 0 / Binary64.literal 100 * Binary64.literal 0.03)%float
        with 0%float by (vm_compute; reflexivity).
      rewrite sub_zero. reflexivity.
  - intros num N p.
    change (quality_label (predict p)) with (getQualityLabel (efficiency (predict p))).
    unfold getQualityLabel.
    split; [ intros ->; reflexivity | ].
    split; [ intros -> ->; reflexivity | ].
    split; [ intros -> -> ->; reflexivity | ].
    split; [ intros -> -> ->; reflexivity | reflexivity ].
  - intros mt ws v c pr mc p.
    assert (Hp : predict p = predict (@example_inputs float _)).
    { apply predict_reads_six; reflexivity. }
    rewrite Hp. vm_compute. repeat split.
Qed.

Lemma predict_matches_specification_witness :
  efficiency (predict (with_temperature (@example_inputs float _) (lit 40)))
  = spec_efficiency (with_temperature (@example_inputs float _) (lit 40)) /\
  efficiency (predict (@example_inputs float _)) = spec_efficiency (@example_inputs float _) /\
  quality_label (predict (@example_inputs float _)) = "Bonne"%string.
Proof.
  destruct predict_matches_specification as (Hspec & Hlabel & _).
  split; [ apply Hspec; vm_compute; reflexivity | ].
  split; [ apply Hspec; vm_compute; reflexivity | ].
  destruct (Hlabel float float_JsNumber example_inputs) as (_ & _ & Hgood & _).
  apply Hgood; vm_compute; reflexivity.
Defined.

(** C3. Holding every other parameter fixed, the estimator's efficiency
    does not decrease when irradiance increases, does not increase when
    panel_age increases, and does not decrease when soiling_ratio
    increases. *)
Theorem predict_monotone_in_each_parameter :
  forall (p : Inputs Q) (x y : Q),
    x <= y ->
    efficiency (predict (with_irradiance p x)) <= efficiency (predict (with_irradiance p y)) /\
    efficiency (predict (with_panel_age p y)) <= efficiency (predict (with_panel_age p x)) /\
    efficiency (predict (with_soiling_ratio p x))
      <= efficiency (predict (with_soiling_ratio p y)).
Proof.
  intros p x y Hxy.
  repeat split; apply predict_monotone; cbn; solve [ assumption | apply Qle_refl ].
Qed.

Lemma predict_monotone_in_each_parameter_witness :
  0.5 <= 1 /\
  efficiency (predict (with_irradiance (@example_inputs Q _) 0.5))
    <= efficiency (predict (with_irradiance (@example_inputs Q _) 1)) /\
  efficiency (predict (with_panel_age (@example_inputs Q _) 1))
    <= efficiency (predict (with_panel_age (@example_inputs Q _) 0.5)) /\
  efficiency (predict (with_soiling_ratio (@example_inputs Q _) 0.5))
    <= efficiency (predict (with_soiling_ratio (@example_inputs Q _) 1)).
Proof.
  assert (Hxy : 0.5 <= 1) by Qdecide.
  split; [ exact Hxy | ].
  exact (predict_monotone_in_each_parameter example_inputs 0.5 1 Hxy).
Defined.

(** ** The yearly evolution *)

Lemma evolution_record_year (base : Inputs Q) (k : nat) :
  year (evolution_record base k) = Z.of_nat k.
Proof. reflexivity. Qed.

Lemma evolution_years (base : Inputs Q) (n : nat) :
  map (@year Q) (map (evolution_record base) (seq 0 n)) = map Z.of_nat (seq 0 n).
Proof.
  rewrite map_map. apply map_ext. intros k. apply evolution_record_year.
Qed.

Lemma degradation_year_0 (base : Inputs Q) :
  degradation (evolution_record base 0) == 0.
Proof.
  unfold evolution_record, year_record. cbn [degradation]. exact_reading.
  set (e := percent_at base 0).
  assert (Hzero : (e - e) / e * 100 * 10 == 0).
  { assert (Hdiff : e - e == 0) by lra.
    rewrite Hdiff. unfold Qdiv. lra. }
  pose proof (Qround_half_up_zero _ Hzero) as Hround.
  set (rounded := Qround_half_up _) in *.
  literal_div. lra.
Qed.

Lemma evolution_record_status (base : Inputs Q) (k : nat) :
  let pct := efficiency (predict (with_panel_age base (inject_Z (Z.of_nat k)))) * 100 in
  (status (evolution_record base k) = "Bon"%string <-> 60 <= pct) /\
  (status (evolution_record base k) = "Acceptable"%string <-> 45 <= pct < 60) /\
  (status (evolution_record base k) = "À remplacer"%string <-> pct < 45).
Proof.
  intros pct. unfold evolution_record, year_record. cbn [status].
  change (percent_at base (Z.of_nat k)) with pct. exact_reading.
  case_Qle_bool; repeat split; intros;
    solve [ reflexivity | congruence | lra ].
Qed.

(** C4. For every base vector and every [maxYears >= 0] the evolution
    returns exactly [maxYears + 1] records whose years are
    0, 1, ..., maxYears in this order, and the degradation of the year-0
    record is 0.  The default call uses [maxYears = 35]. *)
Theorem generateYearlyEvolution_shape :
  forall (base : Inputs Q) (maxYears : Z),
    (0 <= maxYears)%Z ->
    exists data : list (YearRecord Q),
      generateYearlyEvolution base maxYears = Returned data /\
      Z.of_nat (List.length data) = (maxYears + 1)%Z /\
      map (@year Q) data = map Z.of_nat (seq 0 (Z.to_nat (maxYears + 1))) /\
      exists first : YearRecord Q,
        hd_error data = Some first /\ year first = 0%Z /\ degradation first == 0.
Proof.
  intros base maxYears Hpos.
  exists (map (evolution_record base) (seq 0 (Z.to_nat (maxYears + 1)))).
  split; [ apply generateYearlyEvolution_unrolled | ].
  split; [ rewrite length_map, length_seq; lia | ].
  split; [ apply evolution_years | ].
  exists (evolution_record base 0).
  destruct (Z.to_nat (maxYears + 1)) as [|n] eqn:Hn; [ lia | ].
  split; [ reflexivity | ].
  split; [ reflexivity | apply degradation_year_0 ].
Qed.

Lemma generateYearlyEvolution_shape_witness :
  exists data : list (YearRecord Q),
    generateYearlyEvolution_default example_inputs = Returned data /\
    Z.of_nat (List.length data) = 36%Z /\
    map (@year Q) data = map Z.of_nat (seq 0 36) /\
    exists first : YearRecord Q,
      hd_error data = Some first /\ year first = 0%Z /\ degradation first == 0.
Proof.
  apply (generateYearlyEvolution_shape example_inputs 35). lia.
Defined.

(** The status of a record follows the two tests of the loop's unrounded
    percentage, whatever the reading of the numbers. *)
Lemma evolution_record_tests (num : Type) (N : JsNumber num) (base : Inputs num) (k : nat) :
  let pct := percent_at base (Z.of_nat k) in
  (status (evolution_record base k) = "Bon"%string <-> (pct >=? lit 60)%js = true) /\
  (status (evolution_record base k) = "Acceptable"%string <->
   (pct >=? lit 60)%js = false /\ (pct >=? lit 45)%js = true) /\
  (status (evolution_record base k) = "À remplacer"%string <->
   (pct >=? lit 60)%js = false /\ (pct >=? lit 45)%js = false) /\
  yr_efficiency (evolution_record base k) = (Math_round (pct * lit 10) / lit 10)%js.
Proof.
  intros pct. unfold evolution_record, year_record. cbn [status yr_efficiency].
  fold pct.
  destruct (pct >=? lit 60)%js; destruct (pct >=? lit 45)%js;
    repeat split; intros; try reflexivity; try discriminate;
    repeat match goal with Hc : _ /\ _ |- _ => destruct Hc end; discriminate.
Qed.

(** C8, as the program has it.  In every reading of the numbers the
    status of every record is decided by the unrounded percentage
    [efficiency * 100] of its year: Bon (Good) exactly when the test
    [>= 60] succeeds, Acceptable exactly when it fails and the test
    [>= 45] succeeds, À remplacer (Replace) exactly when both fail.  The
    record's own efficiency is [Math.round] of ten times that percentage,
    divided by ten.  In binary64 a record can store 60 with the status
    Acceptable, and store 45 with the status À remplacer. *)
Theorem status_follows_unrounded_percent :
  (forall (num : Type) (N : JsNumber num) (base : Inputs num) (maxYears : Z)
          (data : list (YearRecord num)) (r : YearRecord num),
      generateYearlyEvolution base maxYears = Returned data ->
      In r data ->
      let pct := (efficiency (predict (with_panel_age base (of_int (year r)))) * lit 100)%js in
      (status r = "Bon"%string <-> (pct >=? lit 60)%js = true) /\
      (status r = "Acceptable"%string <->
       (pct >=? lit 60)%js = false /\ (pct >=? lit 45)%js = true) /\
      (status r = "À remplacer"%string <->
       (pct >=? lit 60)%js = false /\ (pct >=? lit 45)%js = false) /\
      yr_efficiency r = (Math_round (pct * lit 10) / lit 10)%js)
  /\
  (exists (data : list (YearRecord float)) (r : YearRecord float),
      generateYearlyEvolution_default borderline_inputs = Returned data /\
      hd_error data = Some r /\
      yr_efficiency r = lit 60 /\ status r = "Acceptable"%string)
  /\
  (exists (data : list (YearRecord float)) (r : YearRecord float),
      generateYearlyEvolution_default borderline_replace_inputs = Returned data /\
      hd_error data = Some r /\
      yr_efficiency r = lit 45 /\ status r = "À remplacer"%string).
Proof.
  split; [ | split ].
  - intros num N base maxYears data r Hrun Hin.
    rewrite generateYearlyEvolution_unrolled in Hrun.
    injection Hrun as <-.
    apply in_map_iff in Hin. destruct Hin as (k & <- & _).
    exact (evolution_record_tests num N base k).
  - exists (map (evolution_record borderline_inputs) (seq 0 36)),
           (evolution_record borderline_inputs 0).
    split; [ exact (generateYearlyEvolution_unrolled borderline_inputs 35) | ].
    split; [ reflexivity | ].
    split; vm_compute; reflexivity.
  - exists (map (evolution_record borderline_replace_inputs) (seq 0 36)),
           (evolution_record borderline_replace_inputs 0).
    split; [ exact (generateYearlyEvolution_unrolled borderline_replace_inputs 35) | ].
    split; [ reflexivity | ].
    split; vm_compute; reflexivity.
Qed.

Lemma status_follows_unrounded_percent_witness :
  exists r : YearRecord float,
    generateYearlyEvolution borderline_inputs 0 = Returned [r] /\
    (efficiency (predict (with_panel_age borderline_inputs (of_int (year r)))) * lit 100
       >=? lit 60)%js = false /\
    (efficiency (predict (with_panel_age borderline_inputs (of_int (year r)))) * lit 100
       >=? lit 45)%js = true /\
    status r = "Acceptable"%string /\
    yr_efficiency r = lit 60.
Proof.
  exists (evolution_record borderline_inputs 0).
  assert (Hrun : generateYearlyEvolution borderline_inputs 0
                 = Returned [evolution_record (num := float) borderline_inputs 0]).
  { exact (generateYearlyEvolution_unrolled borderline_inputs 0). }
  destruct (proj1 status_follows_unrounded_percent float float_JsNumber
              borderline_inputs 0%Z
              [evolution_record borderline_inputs 0]
              (evolution_record borderline_inputs 0)
              Hrun (or_introl eq_refl)) as (_ & Hacc & _ & Hstored).
  split; [ exact Hrun | ].
  split; [ vm_compute; reflexivity | ].
  split; [ vm_compute; reflexivity | ].
  split; [ apply Hacc; split; vm_compute; reflexivity | ].
  rewrite Hstored. vm_compute. reflexivity.
Defined.

(** C8 fails when read on the record's own (rounded) efficiency: at the
    slider positions [borderline_inputs] the year-0 percentage is 59.98,
    stored as 60.0, and the status is Acceptable, not Bon. *)
Lemma status_not_from_rounded_percent :
  exists (data : list (YearRecord Q)) (r : YearRecord Q),
    generateYearlyEvolution_default borderline_inputs = Returned data /\
    In r data /\
    year r = 0%Z /\
    efficiency (predict (with_panel_age borderline_inputs (inject_Z (year r)))) * 100
      == 59.98 /\
    yr_efficiency r == 60 /\
    status r = "Acceptable"%string /\
    ~ (status r = "Bon"%string <-> 60 <= yr_efficiency r).
Proof.
  exists (map (evolution_record borderline_inputs) (seq 0 36)),
         (evolution_record borderline_inputs 0).
  split; [ exact (generateYearlyEvolution_unrolled borderline_inputs 35) | ].
  split; [ left; reflexivity | ].
  split; [ reflexivity | ].
  split; [ Qdecide | ].
  split; [ Qdecide | ].
  split; [ vm_compute; reflexivity | ].
  intros [_ Hback].
  assert (Hbon : status (evolution_record (num := Q) borderline_inputs 0) = "Bon"%string).
  { apply Hback. Qdecide. }
  vm_compute in Hbon. discriminate Hbon.
Qed.

(** ** The maintenance comparison *)

Lemma scenario_value_le_initial (base : Inputs Q) (y : Z) (s : Scenario Q) :
  scenario_value base y s <= initialEfficiency base.
Proof.
  unfold scenario_value, initialEfficiency. exact_reading.
  set (reference := efficiency (initialResult base)).
  set (boosted := _ + maintenanceBonus s * inject_Z y).
  assert (Hcap : Qmin boosted reference * 1000 <= reference * 1000).
  { pose proof (Q.le_min_r boosted reference). lra. }
  apply Qround_half_up_monotone in Hcap.
  set (capped := Qround_half_up _) in *. set (top := Qround_half_up _) in *.
  literal_div. lra.
Qed.

Lemma point_value_le_initial (base : Inputs Q) (y : Z) (s : Scenario Q) :
  point_value base y s <= initialEfficiency base.
Proof.
  unfold point_value. destruct (y =? 0)%Z.
  - apply Qle_refl.
  - apply scenario_value_le_initial.
Qed.

(** A policy that loses less cleanliness per year and earns at least as
    much bonus never ends lower, at any year. *)
Lemma scenario_value_monotone (base : Inputs Q) (y : Z) (s1 s2 : Scenario Q) :
  (0 <= y)%Z ->
  soilingDecay s2 <= soilingDecay s1 ->
  maintenanceBonus s1 <= maintenanceBonus s2 ->
  scenario_value base y s1 <= scenario_value base y s2.
Proof.
  intros Hy Hdecay Hbonus.
  assert (HY : 0 <= inject_Z y) by (change 0 with (inject_Z 0); rewrite <- Zle_Qle; exact Hy).
  unfold scenario_value. exact_reading.
  set (Y := inject_Z y) in *.
  set (soil1 := Qmax 0.4 (0.85 - soilingDecay s1 * Y)).
  set (soil2 := Qmax 0.4 (0.85 - soilingDecay s2 * Y)).
  assert (Hsoil : soil1 <= soil2).
  { unfold soil1, soil2. apply Q.max_le_compat_l.
    pose proof (Qmult_le_compat_r _ _ Y Hdecay HY). lra. }
  set (e1 := efficiency (predict (with_maintenance_count
                (with_soiling_ratio (with_panel_age base Y) soil1) (Qmin Y 10)))).
  set (e2 := efficiency (predict (with_maintenance_count
                (with_soiling_ratio (with_panel_age base Y) soil2) (Qmin Y 10)))).
  assert (He : e1 <= e2).
  { unfold e1, e2. apply predict_monotone; cbn; solve [ assumption | apply Qle_refl ]. }
  set (reference := efficiency (initialResult base)).
  assert (Hboost : e1 + maintenanceBonus s1 * Y <= e2 + maintenanceBonus s2 * Y).
  { pose proof (Qmult_le_compat_r _ _ Y Hbonus HY). lra. }
  apply (Q.min_le_compat_r _ _ reference) in Hboost.
  assert (Hscaled : Qmin (e1 + maintenanceBonus s1 * Y) reference * 1000
                    <= Qmin (e2 + maintenanceBonus s2 * Y) reference * 1000) by lra.
  apply Qround_half_up_monotone in Hscaled.
  set (r1 := Qround_half_up _) in *. set (r2 := Qround_half_up _) in *.
  literal_div. lra.
Qed.

(** C5. In the year-0 point of the comparison the four scenarios hold one
    and the same number: the reference percentage, computed once from the
    base vector with panel_age 0, soiling_ratio 0.85 and maintenance_count
    0 and rounded to one decimal.  This holds in every reading of the
    numbers. *)
Theorem year_0_scenarios_agree :
  forall (num : Type) (N : JsNumber num) (base : Inputs num),
  exists (point : Obj num) (v : num),
    nth_error (generateMaintenanceComparison base) 0 = Some point /\
    obj_get point "year" = Some (Str "0 ans") /\
    v = (Math_round
           (efficiency
              (predict
                 {| irradiance := irradiance base; soiling_ratio := lit 0.85;
                    panel_age := lit 0; temperature := temperature base;
                    humidity := humidity base; cloud_coverage := cloud_coverage base;
                    module_temperature := module_temperature base;
                    wind_speed := wind_speed base; voltage := voltage base;
                    current := current base; pressure := pressure base;
                    maintenance_count := lit 0 |}) * lit 1000) / lit 10)%js /\
    obj_get point "Sans entretien" = Some (Num v) /\
    obj_get point "Entretien minimal" = Some (Num v) /\
    obj_get point "Entretien régulier" = Some (Num v) /\
    obj_get point "Entretien optimal" = Some (Num v).
Proof.
  intros num N base.
  exists (comparison_point base 0), (initialEfficiency base).
  split; [ reflexivity | ].
  rewrite comparison_point_unrolled.
  repeat split; reflexivity.
Qed.

(** C6. No value stored under any key of any point of the comparison
    exceeds the year-0 reference value of the same base vector; and for
    each of the seven sampled years and each of the four scenarios the
    comparison does hold such a value, in the point of that year under the
    scenario's name. *)
Theorem scenario_never_exceeds_reference :
  forall base : Inputs Q,
    (forall (point : Obj Q) (key : string) (v : Q),
        In point (generateMaintenanceComparison base) ->
        obj_get point key = Some (Num v) ->
        v <= initialEfficiency base)
    /\
    (forall (y : Z) (s : Scenario Q),
        In y [0; 5; 10; 15; 20; 25; 30]%Z ->
        In s scenarios ->
        exists (point : Obj Q) (v : Q),
          In point (generateMaintenanceComparison base) /\
          obj_get point "year" = Some (Str (show_int y ++ " ans")) /\
          obj_get point (name s) = Some (Num v) /\
          v <= initialEfficiency base).
Proof.
  intros base. split.
  - intros point key v Hin Hget.
    unfold generateMaintenanceComparison in Hin.
    apply in_map_iff in Hin. destruct Hin as (y & <- & _).
    rewrite comparison_point_unrolled in Hget. cbn [obj_get] in Hget.
    repeat match type of Hget with
           | (if ?c then _ else _) = _ => destruct c
           end;
      try discriminate Hget;
      injection Hget as <-; apply point_value_le_initial.
  - intros y s Hy Hs.
    exists (comparison_point base y), (point_value base y s).
    split; [ apply in_map; exact Hy | ].
    rewrite comparison_point_unrolled.
    split; [ reflexivity | ].
    split; [ | apply point_value_le_initial ].
    destruct Hs as [<- | [<- | [<- | [<- | []]]]]; reflexivity.
Qed.

Lemma scenario_never_exceeds_reference_witness :
  exists (point : Obj Q) (v : Q),
    In point (generateMaintenanceComparison example_inputs) /\
    obj_get point "year" = Some (Str "30 ans") /\
    obj_get point "Sans entretien" = Some (Num v) /\
    v <= initialEfficiency example_inputs.
Proof.
  apply (proj2 (scenario_never_exceeds_reference example_inputs) 30%Z sans_entretien).
  - cbn [In]. do 6 right. left. reflexivity.
  - left. reflexivity.
Defined.

(** C7. In the year-30 point of the comparison the four values are
    ordered: Entretien optimal (Optimal) >= Entretien régulier (Regular)
    >= Entretien minimal (Minimal) >= Sans entretien (No Maintenance). *)
Theorem year_30_scenarios_ordered :
  forall base : Inputs Q,
  exists (point : Obj Q) (none minimal regular optimal : Q),
    nth_error (generateMaintenanceComparison base) 6 = Some point /\
    obj_get point "year" = Some (Str "30 ans") /\
    obj_get point "Sans entretien" = Some (Num none) /\
    obj_get point "Entretien minimal" = Some (Num minimal) /\
    obj_get point "Entretien régulier" = Some (Num regular) /\
    obj_get point "Entretien optimal" = Some (Num optimal) /\
    none <= minimal /\ minimal <= regular /\ regular <= optimal.
Proof.
  intros base.
  exists (comparison_point base 30),
         (scenario_value base 30 sans_entretien),
         (scenario_value base 30 entretien_minimal),
         (scenario_value base 30 entretien_regulier),
         (scenario_value base 30 entretien_optimal).
  split; [ reflexivity | ].
  rewrite comparison_point_unrolled.
  do 5 (split; [ reflexivity | ]).
  repeat split; apply scenario_value_monotone; solve [ lia | Qdecide ].
Qed.

(** ** The prediction gateway *)

Lemma handlePredict_not_connected (remote : Inputs Q -> Settled (Prediction Q))
    (inputs : Inputs Q) (st : AppState Q) :
  apiStatus st <> connected ->
  handlePredict remote inputs st
  = {| prediction := Some (predict inputs); isLoading := false;
       apiStatus := apiStatus st; error := None |}.
Proof.
  intros Hmode. unfold handlePredict. cbn [apiStatus prediction isLoading error].
  destruct (apiStatus st); [ reflexivity | contradiction | reflexivity ].
Qed.

Lemma handlePredict_sets_prediction (remote : Inputs Q -> Settled (Prediction Q))
    (inputs : Inputs Q) (st : AppState Q) :
  exists result : Prediction Q,
    prediction (handlePredict remote inputs st) = Some result.
Proof.
  unfold handlePredict. cbn [apiStatus prediction isLoading error].
  destruct (apiStatus st); [ | destruct (remote inputs) | ]; eexists; reflexivity.
Qed.

Lemma quality_label_values (e : Q) :
  In (getQualityLabel e) ["Faible"; "Modérée"; "Bonne"; "Excellente"]%string.
Proof.
  unfold getQualityLabel. cbn [In].
  repeat match goal with
         | |- context [ if ?c then _ else _ ] => destruct c
         end; tauto.
Qed.

(** C9. Once the health check has failed the gateway is in local mode, and
    [handlePredict] then stores a well-formed result for every parameter
    vector, however the remote service would answer: the local estimate,
    tagged simulated, with an efficiency in [0.10, 0.85], its percentage
    and one of the four labels, and no error message.  In every mode and
    for every remote answer, some result is stored. *)
Theorem local_mode_still_predicts :
  forall (remote : Inputs Q -> Settled (Prediction Q)) (inputs : Inputs Q)
         (st : AppState Q) (failure : string),
    (let st' := handlePredict remote inputs (checkApi (Rejected failure) st) in
     apiStatus st' = disconnected /\
     prediction st' = Some (predict inputs) /\
     error st' = None /\
     isLoading st' = false /\
     confidence (predict inputs) = "simulated"%string /\
     0.10 <= efficiency (predict inputs) <= 0.85 /\
     efficiency_percent (predict inputs) = efficiency (predict inputs) * 100 /\
     In (quality_label (predict inputs)) ["Faible"; "Modérée"; "Bonne"; "Excellente"]%string)
    /\
    exists result : Prediction Q, prediction (handlePredict remote inputs st) = Some result.
Proof.
  intros remote inputs st failure. split.
  - cbv zeta. rewrite handlePredict_not_connected by (cbn; discriminate).
    cbn [apiStatus prediction isLoading error checkApi].
    repeat (split; [ reflexivity | ]).
    split; [ | split; [ reflexivity | ] ].
    + rewrite predict_efficiency.
      pose proof (clamp_range (unclamped inputs)) as [Hlo Hhi]. split; lra.
    + apply quality_label_values.
  - apply handlePredict_sets_prediction.
Qed.

(** ** The examples in binary64 arithmetic *)

(** The specification's example as a JavaScript engine computes it:
    0.5411 to four decimals, 54.1 %, Bonne, simulated. *)
Example example_inputs_binary64 :
  let result := predict (@example_inputs float _) in
  (Math_round (efficiency result * lit 10000) / lit 10000)%js = lit 0.5411 /\
  (Math_round (efficiency_percent result * lit 10) / lit 10)%js = lit 54.1 /\
  quality_label result = "Bonne"%string /\
  confidence result = "simulated"%string.
Proof. vm_compute. repeat split. Qed.

(** The borderline panel in binary64: stored efficiency 60, status
    Acceptable. *)
Example borderline_inputs_binary64 :
  exists r : YearRecord float,
    generateYearlyEvolution borderline_inputs 0 = Returned [r] /\
    year r = 0%Z /\
    yr_efficiency r = lit 60 /\
    degradation r = lit 0 /\
    status r = "Acceptable"%string.
Proof. eexists. vm_compute. repeat split. Qed.

(** The year-0 and year-30 points of the comparison for the example
    vector in binary64. *)
Example comparison_binary64 :
  nth_error (generateMaintenanceComparison (@example_inputs float _)) 0
  = Some [ ("year", Str "0 ans"); ("Sans entretien", Num (lit 58.7));
           ("Entretien minimal", Num (lit 58.7));
           ("Entretien régulier", Num (lit 58.7));
           ("Entretien optimal", Num (lit 58.7)) ]%string /\
  nth_error (generateMaintenanceComparison (@example_inputs float _)) 6
  = Some [ ("year", Str "30 ans"); ("Sans entretien", Num (lit 45));
           ("Entretien minimal", Num (lit 54.2));
           ("Entretien régulier", Num (lit 58.7));
           ("Entretien optimal", Num (lit 58.7)) ]%string.
Proof. vm_compute. split; reflexivity. Qed.

(** Inputs on a threshold.  With no irradiance, soiling 0.3, age 7,
    humidity 100 and cloud cover 45 the exact efficiency is 0.3 (Modérée)
    and the binary64 one is just below 0.3 (Faible).  With irradiance 700,
    soiling 0.76, temperature 0, humidity 11 and cloud cover 44 the exact
    percentage at year 21 is 60 (Bon) and the binary64 one is just below
    60 (Acceptable, stored as 60). *)
Example threshold_inputs_binary64 :
  let p (num : Type) (N : JsNumber num) : Inputs num :=
    {| irradiance := lit 0; soiling_ratio := lit 0.3; panel_age := lit 7;
       temperature := lit 25; humidity := lit 100; cloud_coverage := lit 45;
       module_temperature := lit 35; wind_speed := lit 7; voltage := lit 30;
       current := lit 2; pressure := lit 1013; maintenance_count := lit 3 |} in
  let q (num : Type) (N : JsNumber num) : Inputs num :=
    {| irradiance := lit 700; soiling_ratio := lit 0.76; panel_age := lit 10;
       temperature := lit 0; humidity := lit 11; cloud_coverage := lit 44;
       module_temperature := lit 35; wind_speed := lit 7; voltage := lit 30;
       current := lit 2; pressure := lit 1013; maintenance_count := lit 3 |} in
  (efficiency (predict (p Q _)) == 0.3 /\
   quality_label (predict (p Q _)) = "Modérée"%string) /\
  ((efficiency (predict (p float _)) <? lit 0.3)%float = true /\
   quality_label (predict (p float _)) = "Faible"%string) /\
  (percent_at (q Q _) 21 == 60 /\
   status (evolution_record (q Q _) 21) = "Bon"%string) /\
  ((percent_at (q float _) 21 <? lit 60)%float = true /\
   status (evolution_record (q float _) 21) = "Acceptable"%string /\
   yr_efficiency (evolution_record (q float _) 21) = lit 60).
Proof. vm_compute. repeat split. Qed.

(** A NaN input is not a finite number, and it passes through the clamp:
    in binary64 the result is NaN, outside every interval, and the label
    falls through to Excellente. *)
Example nan_input_binary64 :
  let result := predict (with_irradiance (@example_inputs float _) PrimFloat.nan) in
  PrimFloat.is_nan (efficiency result) = true /\
  (lit 0.1 <=? efficiency result)%float = false /\
  quality_label result = "Excellente"%string.
Proof. vm_compute. repeat split. Qed.

(** ** More about the estimator *)

(** Reads the number operations at the exact reading and leaves the
    instance folded wherever it is only passed along. *)
Ltac exact_ops :=
  unfold of_int in *;
  change (@lit Q Q_JsNumber) with (fun q : Q => q) in *;
  change (@num_add Q Q_JsNumber) with Qplus in *;
  change (@num_sub Q Q_JsNumber) with Qminus in *;
  change (@num_mul Q Q_JsNumber) with Qmult in *;
  change (@num_div Q Q_JsNumber) with Qdiv in *;
  change (@num_ltb Q Q_JsNumber) with Qltb in *;
  change (@num_leb Q Q_JsNumber) with Qle_bool in *;
  change (@Math_max Q Q_JsNumber) with Qmax in *;
  change (@Math_min Q Q_JsNumber) with Qmin in *;
  change (@Math_round Q Q_JsNumber) with Qround_half_up in *;
  cbv beta in *.

(** Names every predicted efficiency, so that linear arithmetic sees a
    variable. *)
Ltac name_efficiencies :=
  repeat match goal with
    | |- context [ @efficiency Q ?r ] =>
        let e := fresh "e" in set (e := @efficiency Q r) in *; clearbody e
    | _ : context [ @efficiency Q ?r ] |- _ =>
        let e := fresh "e" in set (e := @efficiency Q r) in *; clearbody e
    end.

Lemma predict_efficiency_compat (p q : Inputs Q) :
  irradiance p == irradiance q ->
  soiling_ratio p == soiling_ratio q ->
  panel_age p == panel_age q ->
  temperature p == temperature q ->
  humidity p == humidity q ->
  cloud_coverage p == cloud_coverage q ->
  efficiency (predict p) == efficiency (predict q).
Proof.
  intros Hi Hs Ha Ht Hh Hc.
  apply Qle_antisym; apply predict_monotone; lra.
Qed.

(** X1. Holding every other parameter fixed, the estimator's efficiency
    does not increase when temperature, humidity or cloud_coverage
    increases. *)
Theorem predict_antitone_in_weather :
  forall (p : Inputs Q) (x y : Q),
    x <= y ->
    efficiency (predict (with_temperature p y)) <= efficiency (predict (with_temperature p x)) /\
    efficiency (predict (with_humidity p y)) <= efficiency (predict (with_humidity p x)) /\
    efficiency (predict (with_cloud_coverage p y))
      <= efficiency (predict (with_cloud_coverage p x)).
Proof.
  intros p x y Hxy.
  repeat split; apply predict_monotone; cbn; solve [ assumption | apply Qle_refl ].
Qed.

Lemma predict_antitone_in_weather_witness :
  20 <= 40 /\
  efficiency (predict (with_temperature (@example_inputs Q _) 40))
    <= efficiency (predict (with_temperature (@example_inputs Q _) 20)) /\
  efficiency (predict (with_humidity (@example_inputs Q _) 40))
    <= efficiency (predict (with_humidity (@example_inputs Q _) 20)) /\
  efficiency (predict (with_cloud_coverage (@example_inputs Q _) 40))
    <= efficiency (predict (with_cloud_coverage (@example_inputs Q _) 20)).
Proof.
  assert (Hxy : 20 <= 40) by Qdecide.
  split; [ exact Hxy | ].
  exact (predict_antitone_in_weather example_inputs 20 40 Hxy).
Defined.

(** X2. Temperatures at or below 25 degrees have no effect at all: two
    vectors that differ only in a temperature not above 25 get the same
    result. *)
Theorem predict_ignores_cool_temperature :
  forall (p : Inputs Q) (t1 t2 : Q),
    t1 <= 25 -> t2 <= 25 ->
    predict (with_temperature p t1) = predict (with_temperature p t2).
Proof.
  intros p t1 t2 H1 H2.
  apply Qltb_ge in H1. apply Qltb_ge in H2.
  unfold predict. cbn [temperature with_temperature irradiance soiling_ratio panel_age
                         humidity cloud_coverage].
  exact_reading. rewrite H1, H2. reflexivity.
Qed.

Lemma predict_ignores_cool_temperature_witness :
  predict (with_temperature (@example_inputs Q _) (-10))
  = predict (with_temperature (@example_inputs Q _) 25).
Proof.
  apply (predict_ignores_cool_temperature example_inputs (-10) 25); Qdecide.
Defined.

Lemma read_inputs_fields (obj : Obj Q) (p : Inputs Q) :
  read_inputs obj = Some p ->
  get_number obj "irradiance" = Some (irradiance p) /\
  get_number obj "soiling_ratio" = Some (soiling_ratio p) /\
  get_number obj "panel_age" = Some (panel_age p) /\
  get_number obj "temperature" = Some (temperature p) /\
  get_number obj "humidity" = Some (humidity p) /\
  get_number obj "cloud_coverage" = Some (cloud_coverage p) /\
  get_number obj "module_temperature" = Some (module_temperature p) /\
  get_number obj "wind_speed" = Some (wind_speed p).
Proof.
  unfold read_inputs. intros Hread.
  repeat match type of Hread with
         | match ?g with Some _ => _ | None => _ end = _ =>
             destruct g; [ | discriminate Hread ]
         end.
  injection Hread as <-. repeat split; reflexivity.
Qed.

(** X3. When every slider key of the parameter object holds a value
    between that slider's [min] and [max], the lower clamp is never
    reached: the efficiency is at least 0.2 (and at most 0.85).  At the
    least favourable slider positions the exact efficiency is 0.2175, and
    binary64 arithmetic gives a value just under it, still above 0.2. *)
Theorem predict_within_slider_ranges :
  (forall (obj : Obj Q) (p : Inputs Q),
      read_inputs obj = Some p ->
      in_slider_ranges obj = true ->
      0.2 <= efficiency (predict p) <= 0.85)
  /\
  efficiency (predict (@least_favourable_inputs Q _)) == 0.2175
  /\
  ((lit 0.2 <=? efficiency (predict (@least_favourable_inputs float _)))%float = true /\
   (efficiency (predict (@least_favourable_inputs float _)) <? lit 0.2175)%float = true).
Proof.
  split; [ | split; [ Qdecide | split; vm_compute; reflexivity ] ].
  intros obj p Hread Hrange.
  apply read_inputs_fields in Hread.
  destruct Hread as (Hi & Hs & Ha & Ht & Hh & Hc & Hm & Hw).
  unfold in_slider_ranges in Hrange.
  cbn [forallb FEATURES_CONFIG cfg_key cfg_min cfg_max] in Hrange.
  rewrite Hi, Hs, Ha, Ht, Hh, Hc, Hm, Hw in Hrange.
  exact_reading.
  repeat match type of Hrange with
         | _ && _ = true => apply andb_true_iff in Hrange; destruct Hrange as [? Hrange]
         end.
  repeat match goal with
         | Hb : _ && _ = true |- _ => apply andb_true_iff in Hb; destruct Hb
         | Hb : Qle_bool _ _ = true |- _ => apply Qle_bool_iff in Hb
         end.
  assert (Hlow : 0.2175 <= unclamped p).
  { unfold unclamped. case_Qltb; literal_div; lra. }
  rewrite predict_efficiency.
  case_minmax; lra.
Qed.

Lemma predict_within_slider_ranges_witness :
  0.2 <= efficiency (predict (@example_inputs Q _)) <= 0.85.
Proof.
  apply (proj1 predict_within_slider_ranges initial_inputs example_inputs); reflexivity.
Defined.

(** ** The gauge *)

Lemma or_number_nonzero (x d : Q) : 0 < x -> or_number x d = x.
Proof.
  intros Hx. unfold or_number. exact_reading.
  apply Qltb_lt in Hx. rewrite Hx, orb_true_r. reflexivity.
Qed.

(** X4. The gauge and the estimator label an efficiency alike, although
    the gauge tests the percentage against 30, 50 and 70 and the estimator
    tests the fraction against 0.3, 0.5 and 0.7.  For a local prediction
    the gauge therefore shows that prediction's own efficiency and label. *)
Theorem gauge_label_is_quality_label :
  (forall e : Q, fst (getLabel (gauge_percentage e)) = getQualityLabel e) /\
  (forall p : Inputs Q,
      gauge_value (Some (predict p)) = efficiency (predict p) /\
      fst (getLabel (gauge_percentage (gauge_value (Some (predict p)))))
      = quality_label (predict p)).
Proof.
  assert (Hlabel : forall e : Q, fst (getLabel (gauge_percentage e)) = getQualityLabel e).
  { intros e. unfold getLabel, getQualityLabel, gauge_percentage. exact_reading.
    case_Qltb; solve [ reflexivity | lra ]. }
  split; [ exact Hlabel | ].
  intros p.
  assert (Hvalue : gauge_value (Some (predict p)) = efficiency (predict p)).
  { unfold gauge_value. apply or_number_nonzero.
    rewrite predict_efficiency.
    pose proof (clamp_range (unclamped p)) as [Hlo _]. lra. }
  split; [ exact Hvalue | ].
  rewrite Hvalue. apply Hlabel.
Qed.

(** ** More about the gateway *)

(** X5. What the response interceptor throws.  When the response has no
    body ([null] or [undefined]) it throws the TypeError of reading
    [detail], and when the detail cannot be converted to a string the
    TypeError of that conversion.  Otherwise it throws an Error: with the
    server's [detail] when that is a non-empty string, with Erreur serveur
    when the detail is absent, the empty string or another falsy value,
    and with the detail's conversion to a string when it is another truthy
    value (the empty message for an empty list).  Without a response the
    message is one of two fixed texts.  The message is not empty when
    there is no response, or when the detail is absent or a string. *)
Theorem interceptor_message_informative :
  forall error : AxiosError,
    (forall type_error : string,
        response error = Some (data_nullish type_error) ->
        interceptor error = thrown_TypeError type_error) /\
    (forall type_error : string,
        response error = Some (data_holding (detail_unconvertible type_error)) ->
        interceptor error = thrown_TypeError type_error) /\
    (forall detail : string,
        response error = Some (data_holding (detail_string detail)) ->
        detail <> ""%string ->
        interceptor error = thrown_Error detail) /\
    (forall detail : Detail,
        response error = Some (data_holding detail) ->
        detail = detail_absent \/ detail = detail_string "" \/
        (exists text : string, detail = detail_other false text) ->
        interceptor error = thrown_Error "Erreur serveur") /\
    (forall text : string,
        response error = Some (data_holding (detail_other true text)) ->
        interceptor error = thrown_Error text) /\
    (response error = None ->
     interceptor error
     = thrown_Error
         (if request error
          then "Le serveur ne répond pas. Il se réveille peut-être (30s max)..."
          else "Erreur de configuration de la requête")) /\
    (response error = None \/
     response error = Some (data_holding detail_absent) \/
     (exists detail : string, response error = Some (data_holding (detail_string detail))) ->
     interceptor_message error <> ""%string).
Proof.
  intros error. unfold interceptor_message, interceptor.
  split; [ intros type_error ->; reflexivity | ].
  split; [ intros type_error ->; reflexivity | ].
  split.
  { intros detail -> Hdetail. cbn [throw_detail_or].
    destruct (String.eqb_spec detail ""); [ contradiction | reflexivity ]. }
  split.
  { intros detail -> [-> | [-> | [text ->]]]; reflexivity. }
  split; [ intros text ->; reflexivity | ].
  split.
  { intros ->. destruct (request error); reflexivity. }
  intros [-> | [-> | [detail ->]]].
  - destruct (request error); discriminate.
  - discriminate.
  - cbn [throw_detail_or thrown_message].
    destruct (String.eqb_spec detail ""); [ discriminate | assumption ].
Qed.

Lemma interceptor_message_informative_witness :
  interceptor (mkAxiosError (Some (data_holding (detail_string "Model not loaded"))) true)
  = thrown_Error "Model not loaded" /\
  interceptor (mkAxiosError (Some (data_holding (detail_other true ""))) true)
  = thrown_Error "" /\
  interceptor
    (mkAxiosError (Some (data_nullish "Cannot read properties of null (reading 'detail')"))
       true)
  = thrown_TypeError "Cannot read properties of null (reading 'detail')" /\
  interceptor_message (mkAxiosError None false) <> ""%string.
Proof.
  split; [ | split; [ | split ] ].
  - apply (proj1 (proj2 (proj2 (interceptor_message_informative
             (mkAxiosError (Some (data_holding (detail_string "Model not loaded"))) true)))));
      [ reflexivity | discriminate ].
  - apply (proj1 (proj2 (proj2 (proj2 (proj2 (interceptor_message_informative
             (mkAxiosError (Some (data_holding (detail_other true ""))) true)))))));
      reflexivity.
  - apply (proj1 (interceptor_message_informative
             (mkAxiosError
                (Some (data_nullish "Cannot read properties of null (reading 'detail')"))
                true)));
      reflexivity.
  - apply (proj2 (proj2 (proj2 (proj2 (proj2 (proj2 (interceptor_message_informative
             (mkAxiosError None false)))))))).
    left. reflexivity.
Defined.

Section Gateway.

Context {num : Type} `{JsNumber num}.

(** X6. In connected mode, when the request fails the application stores
    the local estimate together with the message of what the interceptor
    threw (the Error it built, or the TypeError raised on a response
    without a body), and stays in connected mode. *)
Theorem handlePredict_remote_failure :
  forall (http : Inputs num -> HttpOutcome (Prediction num)) (inputs : Inputs num)
         (st : AppState num) (failure : AxiosError),
    apiStatus st = connected ->
    http inputs = Failed failure ->
    let st' := handlePredict (fun i => solarApi_predict (http i)) inputs st in
    prediction st' = Some (predict inputs) /\
    error st' = Some (interceptor_message failure) /\
    apiStatus st' = connected /\
    isLoading st' = false.
Proof.
  intros http inputs st failure Hmode Hfail.
  unfold handlePredict. cbn [apiStatus prediction isLoading error].
  rewrite Hmode, Hfail. cbn. repeat split.
Qed.

(** X7. In connected mode, when the request succeeds the application
    stores the response body as it is, whatever it holds, and clears any
    earlier error message. *)
Theorem handlePredict_remote_success :
  forall (http : Inputs num -> HttpOutcome (Prediction num)) (inputs : Inputs num)
         (st : AppState num) (body : Prediction num),
    apiStatus st = connected ->
    http inputs = Fulfilled body ->
    let st' := handlePredict (fun i => solarApi_predict (http i)) inputs st in
    prediction st' = Some body /\
    error st' = None /\
    apiStatus st' = connected /\
    isLoading st' = false.
Proof.
  intros http inputs st body Hmode Hok.
  unfold handlePredict. cbn [apiStatus prediction isLoading error].
  rewrite Hmode, Hok. cbn. repeat split.
Qed.

(** X8. [handlePredict] never changes the gateway's mode, always ends
    with the loading flag down, and running it again on its own result
    (same parameters, same answer of the service) changes nothing. *)
Theorem handlePredict_settles :
  forall (remote : Inputs num -> Settled (Prediction num)) (inputs : Inputs num)
         (st : AppState num),
    apiStatus (handlePredict remote inputs st) = apiStatus st /\
    isLoading (handlePredict remote inputs st) = false /\
    handlePredict remote inputs (handlePredict remote inputs st)
    = handlePredict remote inputs st.
Proof.
  intros remote inputs st.
  unfold handlePredict. cbn [apiStatus prediction isLoading error].
  destruct (apiStatus st); [ | destruct (remote inputs) | ]; repeat split.
Qed.

(** X9. Whenever the badge reads Mode simulation (while the health check
    is pending as well as after it failed) the service's answer is never
    used: the stored prediction is the local estimate and no error is
    reported. *)
Theorem simulation_mode_ignores_remote :
  forall (remote1 remote2 : Inputs num -> Settled (Prediction num))
         (inputs : Inputs num) (st : AppState num),
    StatusBadge (apiStatus st) = "Mode simulation"%string ->
    handlePredict remote1 inputs st = handlePredict remote2 inputs st /\
    prediction (handlePredict remote1 inputs st) = Some (predict inputs) /\
    error (handlePredict remote1 inputs st) = None.
Proof.
  intros remote1 remote2 inputs st Hbadge.
  unfold handlePredict. cbn [apiStatus prediction isLoading error].
  destruct (apiStatus st); [ | discriminate Hbadge | ]; repeat split.
Qed.

End Gateway.

Lemma handlePredict_remote_failure_witness :
  let failure :=
    mkAxiosError (Some (data_nullish "Cannot read properties of null (reading 'detail')"))
      true in
  let st := checkApi (Resolved tt) (@initialState Q) in
  let st' := handlePredict (fun i => solarApi_predict (Failed failure)) example_inputs st in
  prediction st' = Some (predict example_inputs) /\
  error st' = Some "Cannot read properties of null (reading 'detail')"%string /\
  apiStatus st' = connected /\
  isLoading st' = false.
Proof.
  intros failure.
  apply (handlePredict_remote_failure (num := Q)
           (fun _ => Failed failure) example_inputs
           (checkApi (Resolved tt) initialState) failure);
    reflexivity.
Defined.

Lemma handlePredict_remote_success_witness :
  let body := {| efficiency := 7; efficiency_percent := 0;
                 quality_label := ""; confidence := "model" |} in
  let st := checkApi (Resolved tt) (@initialState Q) in
  let st' := handlePredict (fun i => solarApi_predict (Fulfilled body)) example_inputs st in
  prediction st' = Some body /\
  error st' = None /\
  apiStatus st' = connected /\
  isLoading st' = false.
Proof.
  intros body.
  apply (handlePredict_remote_success (num := Q) (fun _ => Fulfilled body) example_inputs
           (checkApi (Resolved tt) initialState) body);
    reflexivity.
Defined.

Lemma simulation_mode_ignores_remote_witness :
  let remote1 := fun _ : Inputs Q => Rejected (T := Prediction Q) "Erreur serveur" in
  let remote2 := fun p : Inputs Q => Resolved (predict (with_irradiance p 0)) in
  handlePredict remote1 example_inputs initialState
  = handlePredict remote2 example_inputs initialState /\
  prediction (handlePredict remote1 example_inputs initialState)
  = Some (predict example_inputs) /\
  error (handlePredict remote1 example_inputs initialState) = None.
Proof.
  intros remote1 remote2.
  apply (simulation_mode_ignores_remote (num := Q) remote1 remote2 example_inputs initialState).
  reflexivity.
Defined.

(** ** More about the yearly evolution *)

Section EvolutionAnyNumber.

Context {num : Type} `{JsNumber num}.

Lemma nth_error_evolution (base : Inputs num) (n k : nat) (r : YearRecord num) :
  nth_error (map (evolution_record base) (seq 0 n)) k = Some r ->
  (k < n)%nat /\ r = evolution_record base k.
Proof.
  intros Hnth.
  assert (Hlt : (k < n)%nat).
  { assert (Hsome : nth_error (map (evolution_record base) (seq 0 n)) k <> None)
      by congruence.
    apply nth_error_Some in Hsome. rewrite length_map, length_seq in Hsome. exact Hsome. }
  split; [ exact Hlt | ].
  rewrite nth_error_map, nth_error_seq in Hnth.
  apply Nat.ltb_lt in Hlt. rewrite Hlt in Hnth. cbn in Hnth.
  injection Hnth as <-. reflexivity.
Qed.

Lemma firstn_seq_le (a : nat) :
  forall start b : nat, (a <= b)%nat -> firstn a (seq start b) = seq start a.
Proof.
  induction a as [|a IH]; intros start b Hle.
  - reflexivity.
  - destruct b as [|b]; [ lia | ].
    cbn [seq firstn]. f_equal. apply IH. lia.
Qed.

(** X10. [generateYearlyEvolution] returns for every [maxYears]: it never
    reads [data[0]] of an empty array.  The array is empty exactly when
    [maxYears] is negative. *)
Theorem generateYearlyEvolution_never_throws :
  forall (base : Inputs num) (maxYears : Z),
  exists data : list (YearRecord num),
    generateYearlyEvolution base maxYears = Returned data /\
    (data = [] <-> (maxYears < 0)%Z).
Proof.
  intros base maxYears.
  exists (map (evolution_record base) (seq 0 (Z.to_nat (maxYears + 1)))).
  split; [ apply generateYearlyEvolution_unrolled | ].
  destruct (Z.to_nat (maxYears + 1)) as [|n] eqn:Hn.
  - split; [ lia | reflexivity ].
  - split; [ discriminate | lia ].
Qed.

(** X11. A shorter horizon gives a prefix of a longer one: the record of a
    year does not depend on [maxYears]. *)
Theorem generateYearlyEvolution_prefix :
  forall (base : Inputs num) (m1 m2 : Z) (data1 data2 : list (YearRecord num)),
    (m1 <= m2)%Z ->
    generateYearlyEvolution base m1 = Returned data1 ->
    generateYearlyEvolution base m2 = Returned data2 ->
    data1 = firstn (List.length data1) data2.
Proof.
  intros base m1 m2 data1 data2 Hle Hrun1 Hrun2.
  rewrite generateYearlyEvolution_unrolled in Hrun1, Hrun2.
  injection Hrun1 as <-. injection Hrun2 as <-.
  rewrite length_map, length_seq.
  rewrite firstn_map. f_equal.
  symmetry. apply firstn_seq_le. lia.
Qed.

(** X12. The evolution ignores the base vector's own panel_age: every
    year overrides it. *)
Theorem generateYearlyEvolution_ignores_panel_age :
  forall (base : Inputs num) (age : num) (maxYears : Z),
    generateYearlyEvolution (with_panel_age base age) maxYears
    = generateYearlyEvolution base maxYears.
Proof.
  intros base age maxYears.
  rewrite !generateYearlyEvolution_unrolled. reflexivity.
Qed.

End EvolutionAnyNumber.

Lemma generateYearlyEvolution_prefix_witness :
  exists data1 data2 : list (YearRecord Q),
    generateYearlyEvolution example_inputs 2 = Returned data1 /\
    generateYearlyEvolution_default example_inputs = Returned data2 /\
    List.length data1 = 3%nat /\
    data1 = firstn (List.length data1) data2.
Proof.
  exists (map (evolution_record example_inputs) (seq 0 3)),
         (map (evolution_record example_inputs) (seq 0 36)).
  assert (Hrun1 : generateYearlyEvolution (num := Q) example_inputs 2
                  = Returned (map (evolution_record example_inputs) (seq 0 3))).
  { exact (generateYearlyEvolution_unrolled example_inputs 2). }
  assert (Hrun2 : generateYearlyEvolution_default (num := Q) example_inputs
                  = Returned (map (evolution_record example_inputs) (seq 0 36))).
  { exact (generateYearlyEvolution_unrolled example_inputs 35). }
  split; [ exact Hrun1 | ].
  split; [ exact Hrun2 | ].
  split; [ reflexivity | ].
  apply (generateYearlyEvolution_prefix example_inputs 2 35 _ _ ltac:(lia) Hrun1 Hrun2).
Defined.

Lemma percent_at_antitone (base : Inputs Q) (i j : nat) :
  (i <= j)%nat ->
  percent_at base (Z.of_nat j) <= percent_at base (Z.of_nat i).
Proof.
  intros Hij.
  assert (He : efficiency (predict (with_panel_age base (inject_Z (Z.of_nat j))))
               <= efficiency (predict (with_panel_age base (inject_Z (Z.of_nat i))))).
  { apply predict_monotone; cbn; try apply Qle_refl.
    rewrite <- Zle_Qle. lia. }
  unfold percent_at. exact_ops. name_efficiencies. lra.
Qed.

Lemma percent_at_range (base : Inputs Q) (y : Z) : 10 <= percent_at base y <= 85.
Proof.
  pose proof (predict_efficiency (with_panel_age base (inject_Z y))) as Heff.
  pose proof (clamp_range (unclamped (with_panel_age base (inject_Z y)))) as [Hlo Hhi].
  rewrite <- Heff in Hlo, Hhi.
  unfold percent_at. exact_ops. clear Heff. name_efficiencies. split; lra.
Qed.

Lemma Qround_half_up_integer (z : Z) : Qround_half_up (inject_Z z) == inject_Z z.
Proof.
  unfold Qround_half_up.
  assert (Hfloor : Qfloor (inject_Z z + (1 # 2)) = z).
  { apply Z.le_antisymm.
    - apply Z.lt_succ_r. rewrite Zlt_Qlt.
      apply Qle_lt_trans with (inject_Z z + (1 # 2)).
      + apply Qfloor_le.
      + unfold Z.succ. rewrite inject_Z_plus. change (inject_Z 1) with 1.
        generalize (inject_Z z). intros q. lra.
    - rewrite <- (Qfloor_Z z) at 1. apply Qfloor_resp_le.
      generalize (inject_Z z). intros q. lra. }
  rewrite Hfloor. reflexivity.
Qed.

(** Rounding a value lying between two integers stays between them. *)
Lemma Qround_half_up_between (lo hi : Z) (x : Q) :
  inject_Z lo <= x <= inject_Z hi ->
  inject_Z lo <= Qround_half_up x <= inject_Z hi.
Proof.
  intros [Hlo Hhi]. split.
  - rewrite <- (Qround_half_up_integer lo). apply Qround_half_up_monotone. exact Hlo.
  - rewrite <- (Qround_half_up_integer hi). apply Qround_half_up_monotone. exact Hhi.
Qed.

Lemma evolution_record_efficiency_antitone (base : Inputs Q) (i j : nat) :
  (i <= j)%nat ->
  yr_efficiency (evolution_record base j) <= yr_efficiency (evolution_record base i).
Proof.
  intros Hij. unfold evolution_record, year_record. cbn [yr_efficiency]. exact_ops.
  pose proof (percent_at_antitone base i j Hij) as Hpct.
  assert (Hscaled : percent_at base (Z.of_nat j) * 10 <= percent_at base (Z.of_nat i) * 10)
    by lra.
  apply Qround_half_up_monotone in Hscaled.
  set (rj := Qround_half_up _) in *. set (ri := Qround_half_up _) in *.
  literal_div. lra.
Qed.

Lemma evolution_record_production_antitone (base : Inputs Q) (i j : nat) :
  (i <= j)%nat ->
  production (evolution_record base j) <= production (evolution_record base i).
Proof.
  intros Hij. unfold evolution_record, year_record. cbn [production]. exact_ops.
  apply Qround_half_up_monotone.
  pose proof (percent_at_antitone base i j Hij) as Hpct.
  unfold percent_at in Hpct. exact_ops. name_efficiencies. literal_div. lra.
Qed.

(** X13. Along the evolution the stored efficiency and the annual
    production never go up from one year to a later one. *)
Theorem evolution_never_recovers :
  forall (base : Inputs Q) (maxYears : Z) (data : list (YearRecord Q))
         (i j : nat) (ri rj : YearRecord Q),
    generateYearlyEvolution base maxYears = Returned data ->
    nth_error data i = Some ri ->
    nth_error data j = Some rj ->
    (i <= j)%nat ->
    yr_efficiency rj <= yr_efficiency ri /\ production rj <= production ri.
Proof.
  intros base maxYears data i j ri rj Hrun Hi Hj Hij.
  rewrite generateYearlyEvolution_unrolled in Hrun. injection Hrun as <-.
  apply nth_error_evolution in Hi. destruct Hi as [_ ->].
  apply nth_error_evolution in Hj. destruct Hj as [_ ->].
  split.
  - apply evolution_record_efficiency_antitone. exact Hij.
  - apply evolution_record_production_antitone. exact Hij.
Qed.

Lemma evolution_never_recovers_witness :
  yr_efficiency (evolution_record (@example_inputs Q _) 30)
    <= yr_efficiency (evolution_record (@example_inputs Q _) 10) /\
  production (evolution_record (@example_inputs Q _) 30)
    <= production (evolution_record (@example_inputs Q _) 10).
Proof.
  apply (evolution_never_recovers example_inputs 35
           (map (evolution_record example_inputs) (seq 0 36)) 10 30).
  - exact (generateYearlyEvolution_unrolled example_inputs 35).
  - reflexivity.
  - reflexivity.
  - lia.
Defined.

(** X14. The status never improves with age: once a year is À remplacer
    every later year is, and a year that is Bon has only Bon years before
    it. *)
Theorem status_never_improves :
  forall (base : Inputs Q) (maxYears : Z) (data : list (YearRecord Q))
         (i j : nat) (ri rj : YearRecord Q),
    generateYearlyEvolution base maxYears = Returned data ->
    nth_error data i = Some ri ->
    nth_error data j = Some rj ->
    (i <= j)%nat ->
    (status ri = "À remplacer"%string -> status rj = "À remplacer"%string) /\
    (status rj = "Bon"%string -> status ri = "Bon"%string).
Proof.
  intros base maxYears data i j ri rj Hrun Hi Hj Hij.
  rewrite generateYearlyEvolution_unrolled in Hrun. injection Hrun as <-.
  apply nth_error_evolution in Hi. destruct Hi as [_ ->].
  apply nth_error_evolution in Hj. destruct Hj as [_ ->].
  pose proof (evolution_record_status base i) as (Hgood_i & _ & Hrep_i).
  pose proof (evolution_record_status base j) as (Hgood_j & _ & Hrep_j).
  pose proof (percent_at_antitone base i j Hij) as Hpct.
  unfold percent_at in Hpct. exact_ops. cbv zeta in *.
  name_efficiencies.
  split.
  - intros Hrep. apply Hrep_j. apply Hrep_i in Hrep. lra.
  - intros Hgood. apply Hgood_i. apply Hgood_j in Hgood. lra.
Qed.

Lemma status_never_improves_witness :
  status (evolution_record (with_irradiance (@example_inputs Q _) 100) 0)
  = "À remplacer"%string /\
  status (evolution_record (with_irradiance (@example_inputs Q _) 100) 35)
  = "À remplacer"%string.
Proof.
  assert (Hfirst : status (evolution_record (with_irradiance (@example_inputs Q _) 100) 0)
                   = "À remplacer"%string) by (vm_compute; reflexivity).
  split; [ exact Hfirst | ].
  apply (proj1 (status_never_improves (with_irradiance example_inputs 100) 35
                  (map (evolution_record (with_irradiance example_inputs 100)) (seq 0 36))
                  0 35 _ _
                  (generateYearlyEvolution_unrolled (with_irradiance example_inputs 100) 35)
                  eq_refl eq_refl ltac:(lia))).
  exact Hfirst.
Defined.

Lemma Qround_half_up_compat (x y : Q) : x == y -> Qround_half_up x == Qround_half_up y.
Proof.
  intros Hxy. apply Qle_antisym; apply Qround_half_up_monotone; lra.
Qed.



Lemma evolution_record_bounds (base : Inputs Q) (k : nat) :
  10 <= yr_efficiency (evolution_record base k) <= 85 /\
  60 <= production (evolution_record base k) <= 510.
Proof.
  pose proof (percent_at_range base (Z.of_nat k)) as [Hlo Hhi].
  unfold evolution_record, year_record. cbn [yr_efficiency production]. exact_ops.
  split.
  - assert (Hscaled : inject_Z 100 <= percent_at base (Z.of_nat k) * 10 <= inject_Z 850).
    { change (inject_Z 100) with 100. change (inject_Z 850) with 850. split; lra. }
    apply Qround_half_up_between in Hscaled.
    change (inject_Z 100) with 100 in Hscaled. change (inject_Z 850) with 850 in Hscaled.
    destruct Hscaled as [Hrlo Hrhi].
    set (rounded := Qround_half_up _) in *. clearbody rounded.
    literal_div. split; lra.
  - assert (Hscaled : inject_Z 60
                      <= 400 * 1500
                         * efficiency (predict (with_panel_age base (inject_Z (Z.of_nat k))))
                         / 1000
                      <= inject_Z 510).
    { change (inject_Z 60) with 60. change (inject_Z 510) with 510.
      unfold percent_at in Hlo, Hhi. exact_ops. name_efficiencies.
      literal_div. split; lra. }
    apply Qround_half_up_between in Hscaled. exact Hscaled.
Qed.

(** X15. Every record of the evolution stores an efficiency between 10
    and 85 percent and a production between 60 and 510 kWh, the
    production being a whole number. *)
Theorem evolution_record_ranges :
  forall (base : Inputs Q) (maxYears : Z) (data : list (YearRecord Q)) (r : YearRecord Q),
    generateYearlyEvolution base maxYears = Returned data ->
    In r data ->
    10 <= yr_efficiency r <= 85 /\
    60 <= production r <= 510 /\
    exists kwh : Z, production r = inject_Z kwh.
Proof.
  intros base maxYears data r Hrun Hin.
  rewrite generateYearlyEvolution_unrolled in Hrun. injection Hrun as <-.
  apply in_map_iff in Hin. destruct Hin as (k & <- & _).
  pose proof (evolution_record_bounds base k) as [Heff Hprod].
  split; [ exact Heff | ].
  split; [ exact Hprod | ].
  eexists. reflexivity.
Qed.

Lemma evolution_record_ranges_witness :
  10 <= yr_efficiency (evolution_record (@example_inputs Q _) 10) <= 85 /\
  60 <= production (evolution_record (@example_inputs Q _) 10) <= 510 /\
  exists kwh : Z, production (evolution_record (@example_inputs Q _) 10) = inject_Z kwh.
Proof.
  apply (evolution_record_ranges example_inputs 35
           (map (evolution_record example_inputs) (seq 0 36))).
  - exact (generateYearlyEvolution_unrolled example_inputs 35).
  - cbn [seq map In]. do 10 right. left. reflexivity.
Defined.






(** X17. The evolution agrees with the prediction: when the base vector's
    panel_age is the whole number [k], the record of year [k] stores the
    local prediction's percentage rounded to one decimal, and the
    production computed from that prediction. *)
Theorem evolution_agrees_with_prediction :
  forall (base : Inputs Q) (maxYears : Z) (data : list (YearRecord Q))
         (k : nat) (r : YearRecord Q),
    generateYearlyEvolution base maxYears = Returned data ->
    nth_error data k = Some r ->
    panel_age base == inject_Z (Z.of_nat k) ->
    yr_efficiency r == round_to 1 (efficiency_percent (predict base)) /\
    production r == Qround_half_up (400 * 1500 * efficiency (predict base) / 1000).
Proof.
  intros base maxYears data k r Hrun Hnth Hage.
  rewrite generateYearlyEvolution_unrolled in Hrun. injection Hrun as <-.
  apply nth_error_evolution in Hnth. destruct Hnth as [_ ->].
  assert (Heq : efficiency (predict (with_panel_age base (inject_Z (Z.of_nat k))))
                == efficiency (predict base)).
  { apply predict_efficiency_compat; cbn; try reflexivity. symmetry. exact Hage. }
  unfold evolution_record, year_record, percent_at, round_to.
  cbn [yr_efficiency production efficiency_percent predict]. exact_ops.
  change (inject_Z (10 ^ Z.of_nat 1)) with 10.
  split.
  - apply Qdiv_comp; [ | reflexivity ].
    apply Qround_half_up_compat. rewrite Heq. reflexivity.
  - apply Qround_half_up_compat. rewrite Heq. reflexivity.
Qed.

Lemma evolution_agrees_with_prediction_witness :
  yr_efficiency (evolution_record (@example_inputs Q _) 10)
    == round_to 1 (efficiency_percent (predict example_inputs)) /\
  production (evolution_record (@example_inputs Q _) 10)
    == Qround_half_up (400 * 1500 * efficiency (predict example_inputs) / 1000).
Proof.
  apply (evolution_agrees_with_prediction example_inputs 35
           (map (evolution_record example_inputs) (seq 0 36)) 10).
  - exact (generateYearlyEvolution_unrolled example_inputs 35).
  - reflexivity.
  - reflexivity.
Defined.

(** ** More about the maintenance comparison *)

Section ComparisonAnyNumber.

Context {num : Type} `{JsNumber num}.

(** X18. The comparison ignores the base vector's own panel_age,
    soiling_ratio and maintenance_count: the three are overridden at every
    point, the cleanliness slider included. *)
Theorem generateMaintenanceComparison_ignores_overridden :
  forall (base : Inputs num) (age soiling count : num),
    generateMaintenanceComparison
      (with_maintenance_count (with_soiling_ratio (with_panel_age base age) soiling) count)
    = generateMaintenanceComparison base.
Proof.
  intros base age soiling count.
  unfold generateMaintenanceComparison. apply map_ext. intros y.
  rewrite !comparison_point_unrolled. reflexivity.
Qed.

(** X19. The comparison has seven points, for 0, 5, ..., 30 years in this
    order, and the own keys of each point are, in insertion order, [year]
    and the four scenario names. *)
Theorem generateMaintenanceComparison_shape :
  forall base : Inputs num,
    map (fun point => obj_get point "year") (generateMaintenanceComparison base)
    = [ Some (Str "0 ans"); Some (Str "5 ans"); Some (Str "10 ans"); Some (Str "15 ans");
        Some (Str "20 ans"); Some (Str "25 ans"); Some (Str "30 ans") ] /\
    (forall point : Obj num,
        In point (generateMaintenanceComparison base) ->
        map fst point
        = [ "year"; "Sans entretien"; "Entretien minimal"; "Entretien régulier";
            "Entretien optimal" ]%string).
Proof.
  intros base. split.
  - unfold generateMaintenanceComparison, years. cbn [map].
    rewrite !comparison_point_unrolled. reflexivity.
  - intros point Hin.
    unfold generateMaintenanceComparison in Hin.
    apply in_map_iff in Hin. destruct Hin as (y & <- & _).
    rewrite comparison_point_unrolled. reflexivity.
Qed.

End ComparisonAnyNumber.

Lemma scenario_value_bounds (base : Inputs Q) (y : Z) (s : Scenario Q) :
  (0 <= y)%Z ->
  0 <= maintenanceBonus s ->
  10 <= scenario_value base y s <= 85.
Proof.
  intros Hy Hbonus.
  assert (HY : 0 <= inject_Z y) by (change 0 with (inject_Z 0); rewrite <- Zle_Qle; exact Hy).
  pose proof (Qmult_le_0_compat _ _ Hbonus HY) as Hextra.
  unfold scenario_value, initialResult.
  match goal with
  | |- context [ predict ?p ] =>
      pose proof (predict_efficiency p) as Heq;
      pose proof (clamp_range (unclamped p)) as [Hlo Hhi];
      rewrite <- Heq in Hlo, Hhi; clear Heq
  end.
  pose proof (predict_efficiency (initialInputs base)) as Heq0.
  pose proof (clamp_range (unclamped (initialInputs base))) as [Hlo0 Hhi0].
  rewrite <- Heq0 in Hlo0, Hhi0. clear Heq0.
  exact_ops. name_efficiencies.
  set (extra := maintenanceBonus s * inject_Z y) in *. clearbody extra.
  assert (Hscaled : inject_Z 100 <= Qmin (e + extra) e0 * 1000 <= inject_Z 850).
  { change (inject_Z 100) with 100. change (inject_Z 850) with 850.
    case_minmax; split; lra. }
  apply Qround_half_up_between in Hscaled.
  change (inject_Z 100) with 100 in Hscaled. change (inject_Z 850) with 850 in Hscaled.
  set (rounded := Qround_half_up _) in *. clearbody rounded.
  literal_div. split; lra.
Qed.

Lemma initialEfficiency_bounds (base : Inputs Q) : 10 <= initialEfficiency base <= 85.
Proof.
  unfold initialEfficiency, initialResult.
  pose proof (predict_efficiency (initialInputs base)) as Heq0.
  pose proof (clamp_range (unclamped (initialInputs base))) as [Hlo0 Hhi0].
  rewrite <- Heq0 in Hlo0, Hhi0. clear Heq0.
  exact_ops. name_efficiencies.
  assert (Hscaled : inject_Z 100 <= e * 1000 <= inject_Z 850).
  { change (inject_Z 100) with 100. change (inject_Z 850) with 850. split; lra. }
  apply Qround_half_up_between in Hscaled.
  change (inject_Z 100) with 100 in Hscaled. change (inject_Z 850) with 850 in Hscaled.
  set (rounded := Qround_half_up _) in *. clearbody rounded.
  literal_div. split; lra.
Qed.

Lemma sampled_year_cases (y : Z) :
  In y years -> (0 <= y)%Z.
Proof.
  unfold years. cbn [In]. intros Hin.
  repeat (destruct Hin as [<- | Hin]; [ lia | ]). contradiction.
Qed.

Lemma scenario_bonus_nonnegative (s : Scenario Q) :
  In s scenarios -> 0 <= maintenanceBonus s.
Proof.
  intros Hin. destruct Hin as [<- | [<- | [<- | [<- | []]]]]; Qdecide.
Qed.

Lemma point_value_bounds (base : Inputs Q) (y : Z) (s : Scenario Q) :
  In y years -> In s scenarios -> 10 <= point_value base y s <= 85.
Proof.
  intros Hy Hs. unfold point_value. destruct (y =? 0)%Z.
  - apply initialEfficiency_bounds.
  - apply scenario_value_bounds.
    + apply sampled_year_cases. exact Hy.
    + apply scenario_bonus_nonnegative. exact Hs.
Qed.

(** X20. Every number of the comparison lies between 10 and 85 percent. *)
Theorem comparison_values_in_range :
  forall (base : Inputs Q) (point : Obj Q) (key : string) (v : Q),
    In point (generateMaintenanceComparison base) ->
    obj_get point key = Some (Num v) ->
    10 <= v <= 85.
Proof.
  intros base point key v Hin Hget.
  unfold generateMaintenanceComparison in Hin.
  apply in_map_iff in Hin. destruct Hin as (y & <- & Hy).
  rewrite comparison_point_unrolled in Hget. cbn [obj_get] in Hget.
  repeat match type of Hget with
         | (if ?c then _ else _) = _ => destruct c
         end;
    try discriminate Hget;
    injection Hget as <-;
    apply point_value_bounds; try exact Hy;
    unfold scenarios, sans_entretien, entretien_minimal, entretien_regulier,
      entretien_optimal; cbn [nth In]; tauto.
Qed.

Lemma comparison_values_in_range_witness :
  10 <= scenario_value (@example_inputs Q _) 30 sans_entretien <= 85.
Proof.
  apply (comparison_values_in_range example_inputs
           (comparison_point example_inputs 30) "Sans entretien").
  - unfold generateMaintenanceComparison, years. cbn [map In]. do 6 right. left. reflexivity.
  - rewrite comparison_point_unrolled. reflexivity.
Defined.

(** X21. At every point of the comparison, not only the last, the four
    scenarios are ordered: Sans entretien <= Entretien minimal <=
    Entretien régulier <= Entretien optimal. *)
Theorem scenarios_ordered_at_every_year :
  forall (base : Inputs Q) (point : Obj Q),
    In point (generateMaintenanceComparison base) ->
    exists none minimal regular optimal : Q,
      obj_get point "Sans entretien" = Some (Num none) /\
      obj_get point "Entretien minimal" = Some (Num minimal) /\
      obj_get point "Entretien régulier" = Some (Num regular) /\
      obj_get point "Entretien optimal" = Some (Num optimal) /\
      none <= minimal /\ minimal <= regular /\ regular <= optimal.
Proof.
  intros base point Hin.
  unfold generateMaintenanceComparison in Hin.
  apply in_map_iff in Hin. destruct Hin as (y & <- & Hy).
  apply sampled_year_cases in Hy.
  exists (point_value base y sans_entretien), (point_value base y entretien_minimal),
         (point_value base y entretien_regulier), (point_value base y entretien_optimal).
  rewrite comparison_point_unrolled.
  do 4 (split; [ reflexivity | ]).
  unfold point_value. destruct (y =? 0)%Z.
  - repeat split; apply Qle_refl.
  - repeat split; apply scenario_value_monotone; solve [ exact Hy | Qdecide ].
Qed.

Lemma scenarios_ordered_at_every_year_witness :
  exists none minimal regular optimal : Q,
    obj_get (comparison_point (@example_inputs Q _) 10) "Sans entretien" = Some (Num none) /\
    obj_get (comparison_point (@example_inputs Q _) 10) "Entretien minimal"
    = Some (Num minimal) /\
    obj_get (comparison_point (@example_inputs Q _) 10) "Entretien régulier"
    = Some (Num regular) /\
    obj_get (comparison_point (@example_inputs Q _) 10) "Entretien optimal"
    = Some (Num optimal) /\
    none <= minimal /\ minimal <= regular /\ regular <= optimal.
Proof.
  apply (scenarios_ordered_at_every_year example_inputs).
  unfold generateMaintenanceComparison, years. cbn [map In]. do 2 right. left. reflexivity.
Defined.

(** ** The parameter state *)

Section ParameterState.

Context {num : Type} `{JsNumber num}.

Lemma obj_get_set_same (obj : Obj num) (key : string) (v : Value num) :
  obj_get (obj_set obj key v) key = Some v.
Proof.
  induction obj as [|[k w] rest IH]; cbn [obj_set obj_get].
  - rewrite String.eqb_refl. reflexivity.
  - destruct (String.eqb k key) eqn:Hk; cbn [obj_get]; rewrite Hk.
    + reflexivity.
    + exact IH.
Qed.

Lemma obj_get_set_other (obj : Obj num) (key other : string) (v : Value num) :
  other <> key -> obj_get (obj_set obj key v) other = obj_get obj other.
Proof.
  intros Hother.
  induction obj as [|[k w] rest IH]; cbn [obj_set obj_get].
  - destruct (String.eqb_spec key other); [ congruence | reflexivity ].
  - destruct (String.eqb_spec k key) as [-> | Hk]; cbn [obj_get].
    + destruct (String.eqb_spec key other); [ congruence | reflexivity ].
    + destruct (String.eqb k other); [ reflexivity | exact IH ].
Qed.

Lemma obj_set_keys (obj : Obj num) (key : string) (v : Value num) :
  In key (map fst obj) -> map fst (obj_set obj key v) = map fst obj.
Proof.
  induction obj as [|[k w] rest IH]; cbn [obj_set map fst In].
  - contradiction.
  - intros [-> | Hin].
    + rewrite String.eqb_refl. reflexivity.
    + destruct (String.eqb k key); cbn [map fst]; [ reflexivity | ].
      f_equal. apply IH. exact Hin.
Qed.

Lemma get_number_updateInput (obj : Obj num) (key other : string) (value : num) :
  get_number (updateInput key value obj) other
  = if String.eqb key other then Some value else get_number obj other.
Proof.
  unfold get_number, updateInput.
  destruct (String.eqb_spec key other) as [<- | Hother].
  - rewrite obj_get_set_same. reflexivity.
  - rewrite obj_get_set_other by congruence. reflexivity.
Qed.

(** X22. Moving a slider writes its key and nothing else: the key then
    reads as the new value, every other key reads as before, and an
    object that already has the key keeps its keys and their order. *)
Theorem updateInput_writes_one_key :
  forall (key : string) (value : num) (prev : Obj num),
    obj_get (updateInput key value prev) key = Some (Num value) /\
    (forall other : string,
        other <> key -> obj_get (updateInput key value prev) other = obj_get prev other) /\
    (In key (map fst prev) -> map fst (updateInput key value prev) = map fst prev).
Proof.
  intros key value prev. unfold updateInput.
  split; [ apply obj_get_set_same | ].
  split; [ intros other Hother; apply obj_get_set_other; exact Hother | ].
  apply obj_set_keys.
Qed.

Lemma read_inputs_updateInput (prev : Obj num) (p : Inputs num) (key : string)
    (value : num) :
  read_inputs prev = Some p ->
  In key (map cfg_key FEATURES_CONFIG) ->
  read_inputs (updateInput key value prev) = Some (with_key p key value).
Proof.
  intros Hread Hkey.
  unfold read_inputs in Hread.
  destruct (get_number prev "irradiance") as [v1|] eqn:H1; [ | discriminate Hread ].
  destruct (get_number prev "soiling_ratio") as [v2|] eqn:H2; [ | discriminate Hread ].
  destruct (get_number prev "panel_age") as [v3|] eqn:H3; [ | discriminate Hread ].
  destruct (get_number prev "temperature") as [v4|] eqn:H4; [ | discriminate Hread ].
  destruct (get_number prev "humidity") as [v5|] eqn:H5; [ | discriminate Hread ].
  destruct (get_number prev "cloud_coverage") as [v6|] eqn:H6; [ | discriminate Hread ].
  destruct (get_number prev "module_temperature") as [v7|] eqn:H7; [ | discriminate Hread ].
  destruct (get_number prev "wind_speed") as [v8|] eqn:H8; [ | discriminate Hread ].
  destruct (get_number prev "voltage") as [v9|] eqn:H9; [ | discriminate Hread ].
  destruct (get_number prev "current") as [v10|] eqn:H10; [ | discriminate Hread ].
  destruct (get_number prev "pressure") as [v11|] eqn:H11; [ | discriminate Hread ].
  destruct (get_number prev "maintenance_count") as [v12|] eqn:H12; [ | discriminate Hread ].
  injection Hread as <-.
  cbn [map FEATURES_CONFIG cfg_key In] in Hkey.
  unfold read_inputs. rewrite !get_number_updateInput.
  rewrite H1, H2, H3, H4, H5, H6, H7, H8, H9, H10, H11, H12.
  repeat (destruct Hkey as [<- | Hkey]; [ reflexivity | ]).
  contradiction.
Qed.


(** X23. A parameter object that holds all twelve numbers still does after
    any slider is moved, and the estimator then sees the former vector
    with that one field replaced. *)
Theorem updateInput_keeps_inputs_complete :
  forall (prev : Obj num) (p : Inputs num) (key : string) (value : num),
    read_inputs prev = Some p ->
    In key (map cfg_key FEATURES_CONFIG) ->
    read_inputs (updateInput key value prev) = Some (with_key p key value).
Proof.
  intros prev p key value. apply read_inputs_updateInput.
Qed.

(** X24. From the initial state on, whatever sliders are moved and in
    whatever order, the parameter object holds all twelve numbers: the
    estimator never reads a missing key. *)
Theorem inputs_always_complete :
  forall updates : list (string * num),
    Forall (fun update => In (fst update) (map cfg_key FEATURES_CONFIG)) updates ->
    exists p : Inputs num,
      read_inputs
        (fold_left (fun prev update => updateInput (fst update) (snd update) prev)
           updates initial_inputs)
      = Some p.
Proof.
  intros updates Hkeys.
  assert (Hstart : exists p : Inputs num, read_inputs initial_inputs = Some p).
  { eexists. reflexivity. }
  revert Hstart. generalize (@initial_inputs num _).
  induction Hkeys as [|[key value] updates Hkey Hrest IH]; intros obj (p & Hread).
  - exists p. exact Hread.
  - cbn [fold_left fst snd]. apply IH.
    exists (with_key p key value).
    apply read_inputs_updateInput; assumption.
Qed.

(** X25. [DegradationStats] throws exactly on an empty array: with at
    least one record it renders, whatever the current age is. *)
Theorem DegradationStats_throws_only_on_empty :
  forall (data : list (YearRecord num)) (currentAge : num),
    DegradationStats data currentAge = TypeError <-> data = [].
Proof.
  intros data currentAge. unfold DegradationStats, currentData, initialData.
  destruct data as [|first rest].
  - split; reflexivity.
  - cbn [nth_error].
    destruct (find _ (first :: rest)); split; discriminate.
Qed.

End ParameterState.

Lemma updateInput_keeps_inputs_complete_witness :
  read_inputs (updateInput "panel_age" 20 (@initial_inputs Q _))
  = Some (with_panel_age example_inputs 20).
Proof.
  apply (updateInput_keeps_inputs_complete (num := Q) initial_inputs example_inputs
           "panel_age" 20).
  - reflexivity.
  - cbn [map FEATURES_CONFIG cfg_key In]. tauto.
Defined.

Lemma inputs_always_complete_witness :
  exists p : Inputs Q,
    read_inputs
      (fold_left (fun prev update => updateInput (fst update) (snd update) prev)
         [ ("irradiance"%string, 800); ("panel_age"%string, 20); ("irradiance"%string, 0) ]
         initial_inputs)
    = Some p.
Proof.
  apply (inputs_always_complete (num := Q)).
  repeat constructor; cbn [fst map FEATURES_CONFIG cfg_key In]; tauto.
Defined.

Lemma updateInput_writes_one_key_witness :
  obj_get (updateInput "humidity" 80 (@initial_inputs Q _)) "irradiance"
  = obj_get initial_inputs "irradiance" /\
  map fst (updateInput "humidity" 80 (@initial_inputs Q _)) = map fst (@initial_inputs Q _).
Proof.
  destruct (updateInput_writes_one_key (num := Q) "humidity" 80 initial_inputs)
    as (_ & Hother & Hkeys).
  split.
  - apply Hother. discriminate.
  - apply Hkeys. cbn. tauto.
Defined.

Lemma generateMaintenanceComparison_shape_witness :
  map fst (comparison_point (@example_inputs Q _) 15)
  = [ "year"; "Sans entretien"; "Entretien minimal"; "Entretien régulier";
      "Entretien optimal" ]%string.
Proof.
  apply (proj2 (generateMaintenanceComparison_shape (num := Q) example_inputs)).
  unfold generateMaintenanceComparison, years. cbn [map In]. do 3 right. left. reflexivity.
Defined.

(** ** The degradation cards *)

Lemma strict_eq_iff (a b : Q) : strict_eq a b = true <-> a == b.
Proof.
  unfold strict_eq. exact_ops. rewrite andb_true_iff, !Qle_bool_iff.
  split.
  - intros [Hab Hba]. apply Qle_antisym; assumption.
  - intros Heq. split; lra.
Qed.

Lemma strict_eq_years (i k : nat) :
  strict_eq (of_int (Z.of_nat i)) (inject_Z (Z.of_nat k)) = true <-> i = k.
Proof.
  unfold of_int. change (@lit Q Q_JsNumber) with (fun q : Q => q). cbv beta.
  rewrite strict_eq_iff, inject_Z_injective. lia.
Qed.

Lemma find_current_year (base : Inputs Q) (k len : nat) :
  forall start : nat,
    (start <= k < start + len)%nat ->
    find (fun d => strict_eq (of_int (year d)) (inject_Z (Z.of_nat k)))
      (map (evolution_record base) (seq start len))
    = Some (evolution_record base k).
Proof.
  induction len as [|len IH]; intros start Hk.
  - lia.
  - cbn [seq map find]. rewrite evolution_record_year.
    destruct (strict_eq (of_int (Z.of_nat start)) (inject_Z (Z.of_nat k))) eqn:Hcmp.
    + apply strict_eq_years in Hcmp. subst start. reflexivity.
    + apply IH.
      assert (Hneq : start <> k).
      { intros ->. assert (Htrue : strict_eq (of_int (Z.of_nat k)) (inject_Z (Z.of_nat k))
                                   = true) by (apply strict_eq_years; reflexivity).
        congruence. }
      lia.
Qed.

(** X26. On the evolution the current-age card shows the record of the
    current year: for a whole age [k] within the horizon it is the [k]-th
    record, whose year is [k].  For an age that is no record's year the
    card falls back to the year-0 record. *)
Theorem currentData_is_current_year :
  forall (base : Inputs Q) (maxYears : Z) (data : list (YearRecord Q)),
    generateYearlyEvolution base maxYears = Returned data ->
    (forall k : nat,
        (Z.of_nat k <= maxYears)%Z ->
        exists r : YearRecord Q,
          currentData data (inject_Z (Z.of_nat k)) = Some r /\
          nth_error data k = Some r /\
          year r = Z.of_nat k) /\
    (forall age : Q,
        (forall r : YearRecord Q, In r data -> ~ inject_Z (year r) == age) ->
        currentData data age = nth_error data 0).
Proof.
  intros base maxYears data Hrun.
  rewrite generateYearlyEvolution_unrolled in Hrun. injection Hrun as <-.
  split.
  - intros k Hk. exists (evolution_record base k).
    unfold currentData. rewrite find_current_year by lia.
    split; [ reflexivity | ].
    split; [ | reflexivity ].
    rewrite nth_error_map, nth_error_seq.
    replace (k <? Z.to_nat (maxYears + 1))%nat with true
      by (symmetry; apply Nat.ltb_lt; lia).
    reflexivity.
  - intros age Hnone. unfold currentData.
    destruct (find _ _) as [d|] eqn:Hfind; [ | reflexivity ].
    apply find_some in Hfind. destruct Hfind as [Hin Hcmp].
    unfold of_int in Hcmp. change (@lit Q Q_JsNumber) with (fun q : Q => q) in Hcmp.
    cbv beta in Hcmp. apply strict_eq_iff in Hcmp.
    exfalso. exact (Hnone d Hin Hcmp).
Qed.

Lemma currentData_is_current_year_witness :
  exists r : YearRecord Q,
    currentData (map (evolution_record example_inputs) (seq 0 36)) (inject_Z (Z.of_nat 10))
    = Some r /\
    nth_error (map (evolution_record example_inputs) (seq 0 36)) 10 = Some r /\
    year r = Z.of_nat 10.
Proof.
  apply (proj1 (currentData_is_current_year example_inputs 35
                  (map (evolution_record example_inputs) (seq 0 36))
                  (generateYearlyEvolution_unrolled example_inputs 35))).
  lia.
Defined.

Lemma findIndex_from_spec {A : Type} (f : A -> bool) (l : list A) :
  forall start : Z,
    (findIndex_from f l start = (-1)%Z /\ forall x : A, In x l -> f x = false)
    \/
    (exists (i : nat) (x : A),
        findIndex_from f l start = (start + Z.of_nat i)%Z /\
        nth_error l i = Some x /\ f x = true /\
        forall (j : nat) (y : A), (j < i)%nat -> nth_error l j = Some y -> f y = false).
Proof.
  induction l as [|x rest IH]; intros start; cbn [findIndex_from].
  - left. split; [ reflexivity | intros x [] ].
  - destruct (f x) eqn:Hfx.
    + right. exists 0%nat, x.
      split; [ lia | ]. split; [ reflexivity | ]. split; [ exact Hfx | ].
      intros j y Hj. lia.
    + destruct (IH (start + 1)%Z) as [[Hnone Hall] | (i & z & Hidx & Hnth & Hfz & Hbefore)].
      * left. split; [ exact Hnone | ].
        intros y [<- | Hin]; [ exact Hfx | apply Hall; exact Hin ].
      * right. exists (S i), z.
        split; [ lia | ]. split; [ exact Hnth | ]. split; [ exact Hfz | ].
        intros j y Hj Hy. destruct j as [|j].
        -- cbn in Hy. injection Hy as <-. exact Hfx.
        -- apply (Hbefore j y); [ lia | exact Hy ].
Qed.

(** X27. On the evolution [lifeExpectancy] is either -1, and then no year
    is below 50 percent, or the first year below 50 percent, and then the
    years below 50 percent are exactly that year and all later ones. *)
Theorem lifeExpectancy_is_first_year_below_50 :
  forall (base : Inputs Q) (maxYears : Z) (data : list (YearRecord Q)),
    generateYearlyEvolution base maxYears = Returned data ->
    (lifeExpectancy data = (-1)%Z /\
     forall r : YearRecord Q, In r data -> 50 <= yr_efficiency r)
    \/
    ((0 <= lifeExpectancy data <= maxYears)%Z /\
     forall r : YearRecord Q,
       In r data -> (yr_efficiency r < 50 <-> (lifeExpectancy data <= year r)%Z)).
Proof.
  intros base maxYears data Hrun.
  rewrite generateYearlyEvolution_unrolled in Hrun. injection Hrun as <-.
  unfold lifeExpectancy, findIndex.
  destruct (findIndex_from_spec
              (fun d : YearRecord Q => num_ltb (yr_efficiency d) (lit 50))
              (map (evolution_record base) (seq 0 (Z.to_nat (maxYears + 1)))) 0)
    as [[Hnone Hall] | (i & x & Hidx & Hnth & Hfx & Hbefore)].
  - left. split; [ exact Hnone | ].
    intros r Hin. apply Hall in Hin. exact_ops. apply Qltb_ge in Hin. exact Hin.
  - right. rewrite Hidx.
    apply nth_error_evolution in Hnth. destruct Hnth as [Hi ->].
    split; [ lia | ].
    intros r Hin. apply in_map_iff in Hin. destruct Hin as (k & <- & Hk).
    apply in_seq in Hk. rewrite evolution_record_year.
    exact_ops. apply Qltb_lt in Hfx.
    split.
    + intros Hlow.
      destruct (Nat.le_gt_cases i k) as [Hle | Hgt]; [ lia | ].
      assert (Hk_ok : num_ltb (yr_efficiency (evolution_record base k)) (lit 50) = false).
      { apply (Hbefore k); [ exact Hgt | ].
        rewrite nth_error_map, nth_error_seq.
        replace (k <? Z.to_nat (maxYears + 1))%nat with true
          by (symmetry; apply Nat.ltb_lt; lia).
        reflexivity. }
      exact_ops. apply Qltb_ge in Hk_ok. lra.
    + intros Hle.
      assert (Hik : (i <= k)%nat) by lia.
      pose proof (evolution_record_efficiency_antitone base i k Hik) as Hanti. lra.
Qed.

Lemma lifeExpectancy_is_first_year_below_50_witness :
  lifeExpectancy (map (evolution_record (@example_inputs Q _)) (seq 0 36)) = 29%Z /\
  yr_efficiency (evolution_record (@example_inputs Q _) 29) < 50.
Proof.
  assert (Hlife : lifeExpectancy (map (evolution_record (@example_inputs Q _)) (seq 0 36))
                  = 29%Z) by (vm_compute; reflexivity).
  split; [ exact Hlife | ].
  destruct (lifeExpectancy_is_first_year_below_50 example_inputs 35
              (map (evolution_record example_inputs) (seq 0 36))
              (generateYearlyEvolution_unrolled example_inputs 35))
    as [[Hnone _] | [_ Hyears]].
  - rewrite Hlife in Hnone. discriminate Hnone.
  - apply (Hyears (evolution_record example_inputs 29)).
    + cbn [seq map In]. do 29 right. left. reflexivity.
    + rewrite Hlife. cbn. lia.
Defined.

(** X28. The lifespan card cannot tell a panel that never falls below 50
    percent from one that is below 50 percent from year 0: whenever
    [lifeExpectancy] is -1 or 0, and the current age is not negative, the
    card reads 35+ ans with À remplacer underneath.  Otherwise it shows the
    first year below 50 percent and the years left until then. *)
Theorem lifespan_card :
  forall (data : list (YearRecord Q)) (age : Q) (view : StatsView Q),
    0 <= age ->
    DegradationStats data age = Returned view ->
    ((lifeExpectancy data <= 0)%Z ->
     sv_life view = "35+ ans"%string /\ sv_remaining view = a_remplacer) /\
    ((0 < lifeExpectancy data)%Z ->
     sv_life view = (show_int (lifeExpectancy data) ++ " ans")%string /\
     (age < inject_Z (lifeExpectancy data) ->
      sv_remaining view = ans_restants (inject_Z (lifeExpectancy data) - age)) /\
     (inject_Z (lifeExpectancy data) <= age -> sv_remaining view = a_remplacer)).
Proof.
  intros data age view Hage Hview.
  unfold DegradationStats in Hview.
  destruct (currentData data age) as [current|]; [ | discriminate Hview ].
  destruct (initialData data) as [initial|]; [ | discriminate Hview ].
  injection Hview as <-. cbn [sv_life sv_remaining].
  unfold yearsRemaining. exact_ops.
  set (L := lifeExpectancy data).
  split.
  - intros HL.
    assert (HLq : inject_Z L <= 0) by (change 0 with (inject_Z 0); rewrite <- Zle_Qle; exact HL).
    replace (L >? 0)%Z with false by (symmetry; rewrite Z.gtb_ltb; apply Z.ltb_ge; exact HL).
    split; [ reflexivity | ].
    assert (Hnot : Qltb age (inject_Z L) = false).
    { apply Qltb_ge. revert HLq. generalize (inject_Z L). intros q HLq. lra. }
    rewrite Hnot. reflexivity.
  - intros HL.
    replace (L >? 0)%Z with true by (symmetry; rewrite Z.gtb_ltb; apply Z.ltb_lt; exact HL).
    split; [ reflexivity | ].
    split.
    + intros Hlt. pose proof Hlt as Hcmp. apply Qltb_lt in Hcmp. rewrite Hcmp.
      assert (Hpos : Qltb 0 (inject_Z L - age) = true).
      { apply Qltb_lt. revert Hlt. generalize (inject_Z L). intros q Hlt. lra. }
      rewrite Hpos. reflexivity.
    + intros Hge. apply Qltb_ge in Hge. rewrite Hge. reflexivity.
Qed.

Lemma lifespan_card_witness :
  exists view : StatsView Q,
    DegradationStats
      (map (evolution_record (with_irradiance (@example_inputs Q _) 300)) (seq 0 36)) 0
    = Returned view /\
    lifeExpectancy
      (map (evolution_record (with_irradiance (@example_inputs Q _) 300)) (seq 0 36)) = 0%Z /\
    sv_life view = "35+ ans"%string /\
    sv_remaining view = a_remplacer.
Proof.
  eexists. split; [ reflexivity | ].
  assert (Hlife : lifeExpectancy
                    (map (evolution_record (with_irradiance (@example_inputs Q _) 300))
                       (seq 0 36)) = 0%Z) by (vm_compute; reflexivity).
  split; [ exact Hlife | ].
  apply (proj1 (lifespan_card
                  (map (evolution_record (with_irradiance example_inputs 300)) (seq 0 36))
                  0 _ ltac:(Qdecide) eq_refl)).
  rewrite Hlife. lia.
Defined.

(** The cards for a panel that starts below 50 percent (irradiance 300),
    and for the example panel at its current age, in binary64. *)
Example degradation_cards_binary64 :
  (exists data : list (YearRecord float),
      generateYearlyEvolution_default (with_irradiance example_inputs (lit 300))
      = Returned data /\
      lifeExpectancy data = 0%Z /\
      exists view : StatsView float,
        DegradationStats data (lit 0) = Returned view /\
        sv_life view = "35+ ans"%string /\
        sv_remaining view = a_remplacer) /\
  (exists data : list (YearRecord float),
      generateYearlyEvolution_default example_inputs = Returned data /\
      exists view : StatsView float,
        DegradationStats data (lit 10) = Returned view /\
        sv_efficiency view = lit 54.1 /\
        sv_life view = "29 ans"%string /\
        sv_remaining view = ans_restants (lit 19)).
Proof.
  split; eexists; (split; [ vm_compute; reflexivity | ]).
  - split; [ vm_compute; reflexivity | ].
    eexists. split; [ vm_compute; reflexivity | ]. split; reflexivity.
  - eexists. split; [ vm_compute; reflexivity | ]. repeat split.
Qed.
